(* ===== verification/_CoqProject ===== *)
-Q . S2P
Prelude.v
Base64.v
Detection.v
Metrics.v
Lifecycle.v
Stream.v
Inference.v
Server.v
Routes.v
