(* ===== verification/Prelude.v ===== *)
(** * A verification development for the drowsiness-monitoring backend

    The program is one Flask application, [src/backend/app.py].  Its
    process-wide globals ([is_detection_running], [detection_thread],
    [camera], [last_frame], [frame_lock], [phone_detection_model],
    [drowsiness_data]) are shared by the request handlers, the metrics
    thread and the video generators.  The development models each part of
    the program in its own file, threading those globals explicitly:

    - [Prelude] (this file): the values that cross the Flask boundary
      (JSON values [json], responses [response]), Python's exception
      outcomes as the result monad [pyres] with its notation in
      [py_scope], Python list indexing [py_index], decimal rendering of
      integers, and the shared lemmas on bits of [Z] used by the byte
      codecs (hint databases [py], [pyrw] and [pybits]).
    - [Base64]: the library code the gateway relies on for its first
      stage: [base64.b64decode] with [validate=False], i.e. CPython's
      non-strict [binascii.a2b_base64] state machine ([a2b_loop]) over
      the ASCII codes of the string; and the standard encoder a browser
      uses to build a data URL ([b64encode], a reference, not repository
      code).  Theorems: decode inverts encode for every byte string,
      characters outside the alphabet are skipped anywhere, input after
      a complete padding is ignored, and without padding decoding succeeds
      exactly on whole quads.
    - [Detection]: the phone-detection gateway
      ([process_image_for_phone_detection], [load_phone_detection_model],
      [detect_phone], [detect_phone_endpoint], the two status routes).
      The imaging library (PIL/numpy/TensorFlow conversions) and the
      pretrained detector are interfaces (the classes [ImageLib] and
      [Scorer]) with the laws the code relies on; the model handle is
      the state [phone_detection_model] with a count of hub loads.
      Theorems: the 0.5 / class-77 filter equals a reference filter and
      keeps the scorer's order, out-of-range indexing raises exactly
      when the short-circuit reaches it, a failed load leaves the handle
      unset and is retried on every call, a successful load is never
      repeated, malformed payloads are answered 400 without any model
      call, and the tensor has shape [1;480;640;3].
    - [Inference]: the detection view on request threads of its own,
      interleaved where they touch [phone_detection_model]: the test
      [is None], the [hub.load] download with its assignment, and the
      call of the model ([dstep] over [gw_state], from the state the
      [__main__] block leaves).  Theorems: a loaded model is never
      unloaded, and two requests served together after a failed
      start-up download can both download the model, against the
      specification's load-at-most-once.
    - [Metrics]: the record [drowsiness_data] and one iteration of
      [simulate_drowsiness_detection] ([generate_metrics]), with
      Python's [random] as the interface [RandomSource] ([uniform] and
      [randint] written as CPython writes them) and its range laws
      [RandomLaws].  Theorem: every published field lies in its range,
      carries the current timestamp, and [is_drowsy] is the first draw
      below 0.2.  The float ranges are closed at both ends: CPython's
      [a + (b - a) * random()] can round up to [b].
    - [Lifecycle]: the globals as the record [world], the threads
      (metrics loop, start, stop and read handlers) as program counters,
      and [step], an interleaving semantics where one thread executes
      one statement that touches a global.  [start_detection] and
      [stop_detection] are the handlers run as a whole.  The contract of
      the specification (section 4.3) is an abstract machine of its own:
      [spec_start] and [spec_stop] over [svc] (run state [Stopped] or
      [Running], tasks launched, camera releases), observed on a
      configuration by [abs_svc] and on an answer by [reply_success].
      Theorems: the statement-level steps of each handler, run back to
      back, implement the contract's [start] and [stop]; two sequential
      starts spawn one loop; stopping twice releases the camera twice;
      invariants of every reachable state (the flag is set only with a
      live loop, a pending spawn or a failed spawn; the record is always
      in range); once the flag is clear a metrics thread exits by its
      own steps and, along every execution keeping the flag clear
      ([step_clear]), publishes at most once more; and three reachable
      races: concurrent starts, stop then start, failed spawn.
    - [Stream]: OpenCV as the interface [Vision], the globals [camera]
      and [last_frame] with a store of frame objects ([sstate]), the
      critical section [frame_cache], the in-place [annotate], and the
      generator as [gen_next] (resume to the next [yield]).  Theorems:
      the cache is read once and never refreshed and holds the
      annotated capture, failed reads are retried, and after a stop or
      a failed open no stream ever yields again.
    - [Server]: the whole program as one interleaving semantics
      [sstep]: the [Lifecycle] configuration (whose [camera_handle] is
      the global [camera]), any number of [/video_feed] generators as
      threads with program counters ([GCheck] before the [None] test,
      [GOpen] between the test and [cv2.VideoCapture(0)], [GRun],
      [GDraw] between the critical section and [putText], [GYield]
      suspended at the [yield] until the response asks for the next
      chunk or the client disconnects), the shared
      [last_frame] and frame store, and the capture objects created so
      far ([sv_devices]).  Theorems: in every reachable state [camera]
      is the last capture object with its state, and each generator
      opens the device at most once; two concurrent streams can both
      open the device, and the first object then holds it forever,
      [stop_detection] notwithstanding; a cached frame that no stream
      is drawing on never changes under any interleaving; the in-place
      [putText] outside the lock makes a second stream's picture depend
      on timing; a stopped camera with nothing cached silences every
      stream for good.  The critical section under [frame_lock] is one
      atomic step of [sstep]: no lock state is kept, so what two
      generators can observe of each other's critical sections is
      modelled, but a generator waiting for the lock is not (no
      progress or fairness property is stated).
    - [Routes]: the request layer.  The [@app.route] decorators as the
      rules of [url_map], Werkzeug's matching ([match_rules]) with the
      methods Flask and Werkzeug add ([OPTIONS], [HEAD] for [GET]),
      [MapAdapter.match] ([dispatch]): the leading slashes of the path
      collapsed ([path_part]), then, when no rule accepts the request, a
      second attempt on the path with its slashes merged
      ([merge_slashes], the map's default), which redirects (308) to the
      merged path when a rule accepts it; and [http_arrive], a request
      served on a thread of its own ([threaded=True]) entering
      [Server].  Theorems: dispatch refines the route table of the
      specification, the 404, 405, 308 and automatic [OPTIONS] answers,
      and any HTTP traffic keeps the server in its reachable states.  [System] composes the server with the
      detection threads of [Inference] (a free composition: each step
      acts on one part, and the two share no global), [POST
      /api/detect-phone] entering through the URL map like the other
      routes; theorem: the status routes report the model handle and,
      once they report it loaded, keep doing so whatever follows.

    Fuel: only the sequential generator needs it.  [gen_loop fuel] bounds the
    iterations that [continue] without yielding; the retry theorem
    gives the fuel that suffices ([k + 1] for [k] failed reads), and the
    stall theorems hold for every fuel, so they state non-termination,
    not a lack of fuel.  In [Server] the generators have no fuel: a
    [continue] is one more step of the relation, and the stall theorem
    there quantifies over every sequence of steps.  Everything else is
    structural recursion or a relation.

    Left open: the answers of the views that run on threads (start,
    stop, the metrics read) are in the thread pools of [Lifecycle] and
    [Inference] rather than returned by [sys_arrive]; the commutation
    of independent steps (the metrics loop and the streams) is not
    stated.

    Not modelled: Flask's request and response objects and JSON
    serialisation (views are functions from the decoded request to a
    [response]), the CORS headers [CORS(app)] adds, logging, sleeping
    (time only orders steps), the internals of PIL, OpenCV and the
    TensorFlow model (interfaces with laws), the exception path of the
    [cv2.VideoCapture] block in [generate_frames] (lines 124-126: the
    interface [Vision] never raises), the percent-quoting of a redirect
    location (the routes are plain ASCII) and the Werkzeug rules with
    trailing slashes or converters (the application has none).
    Floating-point values are modelled as rationals [Q]: the comparisons
    the code makes ([>= 0.5], [== 77]) are exact on the float values, and
    the ranges of [random.uniform] are closed, so they hold for the
    rounded doubles too.
    The [dict.update] of the metrics record is one atomic step, as the
    GIL makes it for a literal of string keys. *)

From Stdlib Require Export ZArith QArith Lia String Ascii DecimalString.
From stdpp Require Export base list strings.

(** QArith opens [Q_scope]; arithmetic on indices stays on [nat] unless
    a literal says otherwise. *)
Close Scope Q_scope.
Open Scope nat_scope.

Declare Scope py_scope.
Delimit Scope py_scope with py.

(** ** Python exceptions and the result monad *)

(** The exception classes the modelled code can raise. *)
Inductive exc_kind :=
| ValueError
| TypeError
| IndexError
| KeyError
| AttributeError
| BinasciiError
| UnidentifiedImageError
| OSError
| ModelError.

#[export] Instance exc_kind_eq_dec : EqDecision exc_kind.
Proof. solve_decision. Defined.

(** A raised exception: its class and [str(e)]. *)
Record exc := Exc { exc_class : exc_kind; exc_msg : string }.

(** The outcome of a Python computation: a value or a raised exception. *)
Inductive pyres (A : Type) :=
| Ok (a : A)
| Raise (e : exc).
Arguments Ok {A} a.
Arguments Raise {A} e.

Definition pbind {A B} (c : pyres A) (k : A -> pyres B) : pyres B :=
  match c with
  | Ok a => k a
  | Raise e => Raise e
  end.

Notation "x <- c ;; k" := (pbind c (fun x => k))
  (at level 100, c at next level, right associativity) : py_scope.

(** [try: c except Exception as e: h e]. *)
Definition py_try {A} (c : pyres A) (h : exc -> A) : A :=
  match c with
  | Ok a => a
  | Raise e => h e
  end.

Definition is_ok {A} (c : pyres A) : bool :=
  match c with Ok _ => true | Raise _ => false end.

(** [l[i]] on a Python list or a one-dimensional numpy array, for a
    non-negative index: [IndexError] out of range. *)
Definition py_index {A} (l : list A) (i : nat) : pyres A :=
  match l !! i with
  | Some x => Ok x
  | None => Raise (Exc IndexError "index out of range")
  end.

(** Decimal rendering of an integer, as [str(n)] and [%zd] print it. *)
Definition string_of_Z (z : Z) : string := NilZero.string_of_int (Z.to_int z).

(** ** Values at the Flask boundary *)

(** A JSON document as [request.get_json()] returns it and [jsonify]
    takes it: numbers are rationals (every JSON number and every float
    the code sends is one). *)
Inductive json :=
| JNull
| JBool (b : bool)
| JNum (q : Q)
| JStr (s : string)
| JArr (l : list json)
| JObj (kvs : list (string * json)).

(** Python truthiness of a decoded JSON value ([not data]). *)
Definition json_truthy (j : json) : bool :=
  match j with
  | JNull => false
  | JBool b => b
  | JNum q => negb (Qeq_bool q 0)
  | JStr s => negb (String.eqb s "")
  | JArr l => negb (bool_decide (l = []))
  | JObj kvs => negb (bool_decide (kvs = []))
  end.

(** [d[k]] on a dict decoded by [json.loads]: the last binding of a key
    wins. *)
Fixpoint json_lookup (k : string) (kvs : list (string * json)) : option json :=
  match kvs with
  | [] => None
  | (k', v) :: rest =>
      match json_lookup k rest with
      | Some w => Some w
      | None => if String.eqb k k' then Some v else None
      end
  end.

(** A Flask response: status code and JSON body. *)
Record response := Response { status : nat; body : json }.

(** [jsonify(x)] and [jsonify(x), code]. *)
Definition jsonify (j : json) : response := Response 200 j.
Definition jsonify_code (j : json) (code : nat) : response := Response code j.

Definition jerror (msg : string) : json := JObj [("error", JStr msg)].

(** ** Shared lemmas *)

Create HintDb py discriminated.
Create Rewrite HintDb pyrw.

Lemma pbind_Ok {A B} (a : A) (k : A -> pyres B) : pbind (Ok a) k = k a.
Proof. reflexivity. Qed.

Lemma pbind_Raise {A B} (e : exc) (k : A -> pyres B) : pbind (Raise e) k = Raise e.
Proof. reflexivity. Qed.

Lemma pbind_assoc {A B C} (c : pyres A) (k : A -> pyres B) (k' : B -> pyres C) :
  pbind (pbind c k) k' = pbind c (fun a => pbind (k a) k').
Proof. by destruct c. Qed.

Lemma pbind_Ok_inv {A B} (c : pyres A) (k : A -> pyres B) (b : B) :
  pbind c k = Ok b -> exists a, c = Ok a /\ k a = Ok b.
Proof. destruct c; simpl; [eauto | discriminate]. Qed.

Lemma py_index_Some {A} (l : list A) i x : l !! i = Some x -> py_index l i = Ok x.
Proof. intros H. unfold py_index. by rewrite H. Qed.

Lemma py_index_lt {A} (l : list A) i :
  i < length l -> exists x, py_index l i = Ok x /\ l !! i = Some x.
Proof.
  intros Hi. unfold py_index.
  destruct (lookup_lt_is_Some_2 l i Hi) as [x ->]. eauto.
Qed.

Lemma py_index_ge {A} (l : list A) i :
  length l <= i -> py_index l i = Raise (Exc IndexError "index out of range").
Proof. intros Hi. unfold py_index. by rewrite lookup_ge_None_2. Qed.

#[export] Hint Rewrite @pbind_Ok @pbind_Raise @pbind_assoc : pyrw.
#[export] Hint Resolve pbind_Ok_inv : py.

Ltac py_simp := autorewrite with pyrw in *; simpl in *.

(** Bits of [Z]: the codecs combine fields with [lor] of disjoint
    ranges, [shiftl], [shiftr] and [land] with masks; these lemmas turn
    them into arithmetic that [lia] decides. *)

Create Rewrite HintDb pybits.

Lemma lor_shiftl_disjoint (a b k : Z) :
  (0 <= k)%Z -> (0 <= b < 2 ^ k)%Z ->
  Z.lor (Z.shiftl a k) b = (a * 2 ^ k + b)%Z.
Proof.
  intros Hk Hb. rewrite <- Z.add_nocarry_lor.
  - by rewrite Z.shiftl_mul_pow2.
  - apply Z.bits_inj'. intros n Hn. rewrite Z.land_spec, Z.bits_0.
    destruct (Z.lt_ge_cases n k) as [Hlt | Hge].
    + by rewrite Z.shiftl_spec_low.
    + rewrite <- (Z.mod_small b (2 ^ k)) by lia.
      rewrite Z.mod_pow2_bits_high by lia. apply andb_false_r.
Qed.

Lemma land_mask (a n : Z) : (0 <= n)%Z -> Z.land a (Z.ones n) = (a mod 2 ^ n)%Z.
Proof. apply Z.land_ones. Qed.

Lemma shiftr_div (a n : Z) : (0 <= n)%Z -> Z.shiftr a n = (a / 2 ^ n)%Z.
Proof. apply Z.shiftr_div_pow2. Qed.

Lemma land_3 (a : Z) : Z.land a 3 = (a mod 4)%Z.
Proof. apply (land_mask a 2). lia. Qed.

Lemma land_15 (a : Z) : Z.land a 15 = (a mod 16)%Z.
Proof. apply (land_mask a 4). lia. Qed.

Lemma land_63 (a : Z) : Z.land a 63 = (a mod 64)%Z.
Proof. apply (land_mask a 6). lia. Qed.

Lemma land_255 (a : Z) : Z.land a 255 = (a mod 256)%Z.
Proof. apply (land_mask a 8). lia. Qed.

#[export] Hint Rewrite land_3 land_15 land_63 land_255 : pybits.

(** [lia] after turning [Z.div] and [Z.modulo] by constants into their
    Euclidean equations. *)
Ltac zlia := Z.div_mod_to_equations; lia.

(** Case analysis on the boolean comparisons of [Z] in the goal, each
    case closed by [lia] when it is contradictory. *)
Ltac zbool_case :=
  match goal with
  | |- context [Z.leb ?a ?b] => destruct (Z.leb_spec a b)
  | |- context [Z.ltb ?a ?b] => destruct (Z.ltb_spec a b)
  | |- context [Z.eqb ?a ?b] => destruct (Z.eqb_spec a b)
  end.

Ltac zbool_revert :=
  repeat match goal with
  | H : context [Z.leb _ _] |- _ => revert H
  | H : context [Z.ltb _ _] |- _ => revert H
  | H : context [Z.eqb _ _] |- _ => revert H
  end.

Ltac zbool := repeat (zbool_revert; zbool_case; simpl; intros); try done; try zlia.

(** ** Sequences of transitions *)

Section Star.
Context {A : Type} (R : A -> A -> Prop).

(** Zero or more steps of [R]. *)
Inductive star : A -> A -> Prop :=
| star_refl a : star a a
| star_step a b c : R a b -> star b c -> star a c.

Lemma star_one a b : R a b -> star a b.
Proof. eauto using star. Qed.

Lemma star_trans a b c : star a b -> star b c -> star a c.
Proof. induction 1; eauto using star. Qed.

(** A property preserved by every step holds along a sequence. *)
Lemma star_inv (P : A -> Prop) a b :
  (forall x y, P x -> R x y -> P y) -> P a -> star a b -> P b.
Proof. intros Hstep Ha Hs. induction Hs; eauto. Qed.

End Star.

Create HintDb steps discriminated.
#[export] Hint Constructors star : steps.
#[export] Hint Resolve star_one star_trans : steps.
