(* ===== verification/Base64.v ===== *)
(** * [base64.b64decode] as the detection gateway calls it

    [process_image_for_phone_detection] (src/backend/app.py, line 60)
    decodes the client's payload with [base64.b64decode(image_data)],
    i.e. with [validate=False].  That call is library code: the string is
    encoded to ASCII ([ValueError] otherwise) and handed to CPython's
    [binascii.a2b_base64] in non-strict mode, a four-state machine over
    the input characters.  [a2b_loop] is that loop: characters outside
    the alphabet are skipped, a pad sequence that completes a quad stops
    decoding, and at the end a partial quad is an error.

    [b64encode] is the standard encoder (RFC 4648 with padding) that a
    browser's [canvas.toDataURL] uses to produce the payload; it is the
    reference against which decoding is proved to be a left inverse. *)

From S2P Require Import Prelude.

Local Open Scope Z_scope.

Module B64.

(** The ASCII codes of a [str] as [s.encode('ascii')] would produce them
    when every character is ASCII. *)
Definition ascii_codes (s : string) : list Z :=
  map (fun a => Z.of_N (N_of_ascii a)) (list_ascii_of_string s).

(** The string whose characters have the given codes. *)
Definition string_of_codes (cs : list Z) : string :=
  string_of_list_ascii (map (fun z => ascii_of_N (Z.to_N z)) cs).

(** [table_a2b_base64]: the sextet of an alphabet character, [0xff] for
    every other byte. *)
Definition table_a2b_base64 (c : Z) : Z :=
  if (65 <=? c) && (c <=? 90) then c - 65
  else if (97 <=? c) && (c <=? 122) then c - 71
  else if (48 <=? c) && (c <=? 57) then c + 4
  else if c =? 43 then 62
  else if c =? 47 then 63
  else 255.

Definition BASE64_PAD : Z := 61.

(** The message of the error raised for a lone data character:
    [(bin_data - bin_data_start) / 3 * 4 + 1] data characters. *)
Definition one_more_msg (written : nat) : string :=
  "Invalid base64-encoded string: number of data characters (" ++
  string_of_Z (Z.of_nat written / 3 * 4 + 1) ++
  ") cannot be 1 more than a multiple of 4".

(** The loop of [binascii_a2b_base64_impl] with [strict_mode] false.
    The state is [quad_pos], [leftchar], [pads] and the bytes written so
    far, most recent first; each write stores into an [unsigned char]. *)
Fixpoint a2b_loop (s : list Z) (quad_pos leftchar pads : Z) (acc : list Z)
    : pyres (list Z) :=
  match s with
  | [] =>
      if quad_pos =? 0 then Ok (rev acc)
      else if quad_pos =? 1 then
        Raise (Exc BinasciiError (one_more_msg (length acc)))
      else Raise (Exc BinasciiError "Incorrect padding")
  | this_ch :: rest =>
      if this_ch =? BASE64_PAD then
        if 2 <=? quad_pos then
          if 4 <=? quad_pos + (pads + 1) then Ok (rev acc)
          else a2b_loop rest quad_pos leftchar (pads + 1) acc
        else a2b_loop rest quad_pos leftchar pads acc
      else
        let v := table_a2b_base64 this_ch in
        if 64 <=? v then a2b_loop rest quad_pos leftchar pads acc
        else if quad_pos =? 0 then a2b_loop rest 1 v 0 acc
        else if quad_pos =? 1 then
          a2b_loop rest 2 (Z.land v 15) 0
            (Z.land (Z.lor (Z.shiftl leftchar 2) (Z.shiftr v 4)) 255 :: acc)
        else if quad_pos =? 2 then
          a2b_loop rest 3 (Z.land v 3) 0
            (Z.land (Z.lor (Z.shiftl leftchar 4) (Z.shiftr v 2)) 255 :: acc)
        else
          a2b_loop rest 0 0 0
            (Z.land (Z.lor (Z.shiftl leftchar 6) v) 255 :: acc)
  end.

Definition a2b_base64 (cs : list Z) : pyres (list Z) := a2b_loop cs 0 0 0 [].

(** [base64.b64decode(s)] for a [str] [s], [validate=False]. *)
Definition b64decode (s : string) : pyres (list Z) :=
  let cs := ascii_codes s in
  if forallb (fun c => c <? 128) cs then a2b_base64 cs
  else Raise (Exc ValueError "string argument should contain only ASCII characters").

(** ** The reference encoder *)

Definition b2a_char (v : Z) : Z :=
  if v <? 26 then v + 65
  else if v <? 52 then v + 71
  else if v <? 62 then v - 4
  else if v =? 62 then 43
  else 47.

(** The four sextets of a group of three bytes. *)
Definition sextet1 (a : Z) : Z := Z.shiftr a 2.
Definition sextet2 (a b : Z) : Z := Z.lor (Z.shiftl (Z.land a 3) 4) (Z.shiftr b 4).
Definition sextet3 (b c : Z) : Z := Z.lor (Z.shiftl (Z.land b 15) 2) (Z.shiftr c 6).
Definition sextet4 (c : Z) : Z := Z.land c 63.

Fixpoint b64encode (bs : list Z) : list Z :=
  match bs with
  | a :: b :: c :: rest =>
      b2a_char (sextet1 a) :: b2a_char (sextet2 a b) ::
      b2a_char (sextet3 b c) :: b2a_char (sextet4 c) :: b64encode rest
  | [a; b] =>
      [b2a_char (sextet1 a); b2a_char (sextet2 a b); b2a_char (sextet3 b 0); BASE64_PAD]
  | [a] =>
      [b2a_char (sextet1 a); b2a_char (sextet2 a 0); BASE64_PAD; BASE64_PAD]
  | [] => []
  end.

Definition is_byte (b : Z) : Prop := 0 <= b < 256.

(** A character [a2b_loop] skips: not the pad, not in the alphabet. *)
Definition is_junk (c : Z) : bool := negb (c =? BASE64_PAD) && (64 <=? table_a2b_base64 c).

(** Characters that carry data. *)
Definition data_count (s : list Z) : nat :=
  length (List.filter (fun c => negb (c =? BASE64_PAD) && (table_a2b_base64 c <? 64)) s).

End B64.

(** ** Lemmas on the alphabet and the sextets *)

Module B64Facts.
Import B64.

Lemma b2a_char_table v : 0 <= v < 64 -> table_a2b_base64 (b2a_char v) = v.
Proof. intros Hv. unfold b2a_char. zbool; unfold table_a2b_base64; zbool. Qed.

Lemma b2a_char_not_pad v : 0 <= v < 64 -> (b2a_char v =? BASE64_PAD) = false.
Proof. intros Hv. unfold b2a_char, BASE64_PAD. zbool. Qed.

Lemma sextet1_val a : is_byte a -> sextet1 a = a / 4.
Proof. intros Ha. unfold sextet1. rewrite shiftr_div by lia. reflexivity. Qed.

Lemma sextet2_val a b : is_byte a -> is_byte b -> sextet2 a b = a mod 4 * 16 + b / 16.
Proof.
  unfold is_byte, sextet2. intros Ha Hb. rewrite land_3, (shiftr_div b 4) by lia.
  rewrite lor_shiftl_disjoint; change (2 ^ 4) with 16; zlia.
Qed.

Lemma sextet3_val b c : is_byte b -> is_byte c -> sextet3 b c = b mod 16 * 4 + c / 64.
Proof.
  unfold is_byte, sextet3. intros Hb Hc. rewrite land_15, (shiftr_div c 6) by lia.
  rewrite lor_shiftl_disjoint; change (2 ^ 6) with 64; change (2 ^ 2) with 4; zlia.
Qed.

Lemma sextet4_val c : sextet4 c = c mod 64.
Proof. apply land_63. Qed.

Lemma sextets_range a b c :
  is_byte a -> is_byte b -> is_byte c ->
  0 <= sextet1 a < 64 /\ 0 <= sextet2 a b < 64 /\
  0 <= sextet3 b c < 64 /\ 0 <= sextet4 c < 64.
Proof.
  intros Ha Hb Hc.
  rewrite sextet1_val, sextet2_val, sextet3_val, sextet4_val by done.
  unfold is_byte in *. repeat split; zlia.
Qed.

(** What each of the three writes of a quad produces, and the
    [leftchar] carried between them. *)
Lemma write1 a b : is_byte a -> is_byte b ->
  Z.land (Z.lor (Z.shiftl (sextet1 a) 2) (Z.shiftr (sextet2 a b) 4)) 255 = a.
Proof.
  intros Ha Hb. rewrite sextet1_val, sextet2_val, shiftr_div by (done || lia).
  unfold is_byte in *. change (2 ^ 4) with 16.
  rewrite lor_shiftl_disjoint by (change (2 ^ 2) with 4; zlia).
  change (2 ^ 2) with 4. rewrite land_255. zlia.
Qed.

Lemma left1 a b : is_byte a -> is_byte b -> Z.land (sextet2 a b) 15 = b / 16.
Proof. intros Ha Hb. rewrite sextet2_val, land_15 by done. unfold is_byte in *. zlia. Qed.

Lemma write2 b c : is_byte b -> is_byte c ->
  Z.land (Z.lor (Z.shiftl (b / 16) 4) (Z.shiftr (sextet3 b c) 2)) 255 = b.
Proof.
  intros Hb Hc. rewrite sextet3_val, shiftr_div by (done || lia).
  unfold is_byte in *. change (2 ^ 2) with 4.
  rewrite lor_shiftl_disjoint by (change (2 ^ 4) with 16; zlia).
  change (2 ^ 4) with 16. rewrite land_255. zlia.
Qed.

Lemma left2 b c : is_byte b -> is_byte c -> Z.land (sextet3 b c) 3 = c / 64.
Proof. intros Hb Hc. rewrite sextet3_val, land_3 by done. unfold is_byte in *. zlia. Qed.

Lemma write3 c : is_byte c ->
  Z.land (Z.lor (Z.shiftl (c / 64) 6) (sextet4 c)) 255 = c.
Proof.
  intros Hc. rewrite sextet4_val. unfold is_byte in *.
  rewrite lor_shiftl_disjoint by (change (2 ^ 6) with 64; zlia).
  change (2 ^ 6) with 64. rewrite land_255. zlia.
Qed.

(** Reading an alphabet character: not the pad, and its sextet back. *)
Lemma read_char v : 0 <= v < 64 ->
  (b2a_char v =? BASE64_PAD) = false /\ table_a2b_base64 (b2a_char v) = v /\
  (64 <=? v) = false.
Proof.
  intros Hv. split; [by apply b2a_char_not_pad | split; [by apply b2a_char_table |]].
  apply Z.leb_gt. lia.
Qed.

Ltac read_chars :=
  repeat match goal with
  | |- context [b2a_char ?v =? BASE64_PAD] =>
      let H1 := fresh in let H2 := fresh in let H3 := fresh in
      destruct (read_char v) as (H1 & H2 & H3); [lia | rewrite H1, H2, H3]
  end.

(** A full quad writes its three bytes and returns to the initial
    state. *)
Lemma a2b_quad a b c rest acc :
  is_byte a -> is_byte b -> is_byte c ->
  a2b_loop (b2a_char (sextet1 a) :: b2a_char (sextet2 a b) ::
            b2a_char (sextet3 b c) :: b2a_char (sextet4 c) :: rest) 0 0 0 acc
  = a2b_loop rest 0 0 0 (c :: b :: a :: acc).
Proof.
  intros Ha Hb Hc. destruct (sextets_range a b c) as (? & ? & ? & ?); auto.
  cbn [a2b_loop]. read_chars. simpl.
  rewrite write1, left1, write2, left2, write3 by done. reflexivity.
Qed.

(** A quad closed by one pad ends decoding after two bytes. *)
Lemma a2b_pad1 a b rest acc :
  is_byte a -> is_byte b ->
  a2b_loop ([b2a_char (sextet1 a); b2a_char (sextet2 a b);
             b2a_char (sextet3 b 0); BASE64_PAD] ++ rest) 0 0 0 acc
  = Ok (rev (b :: a :: acc)).
Proof.
  intros Ha Hb. assert (H0 : is_byte 0) by (unfold is_byte; lia).
  destruct (sextets_range a b 0) as (? & ? & ? & ?); auto.
  cbn [a2b_loop app]. read_chars. simpl.
  by rewrite write1, left1, write2 by done.
Qed.

(** A quad closed by two pads ends decoding after one byte. *)
Lemma a2b_pad2 a rest acc :
  is_byte a ->
  a2b_loop ([b2a_char (sextet1 a); b2a_char (sextet2 a 0); BASE64_PAD; BASE64_PAD]
            ++ rest) 0 0 0 acc
  = Ok (rev (a :: acc)).
Proof.
  intros Ha. assert (H0 : is_byte 0) by (unfold is_byte; lia).
  destruct (sextets_range a 0 0) as (? & ? & ? & ?); auto.
  cbn [a2b_loop app]. read_chars. simpl.
  by rewrite write1 by done.
Qed.

(** Decoding the encoding of [bs] followed by anything: a padded
    encoding ends decoding, an unpadded one hands the rest to the loop
    in its initial state. *)
Lemma a2b_encode_app bs rest acc :
  Forall is_byte bs ->
  a2b_loop (b64encode bs ++ rest) 0 0 0 acc =
  if (length bs mod 3 =? 0)%nat then a2b_loop rest 0 0 0 (rev bs ++ acc)
  else Ok (rev acc ++ bs).
Proof.
  revert acc. induction bs as [bs IH] using (induction_ltof1 _ (@length Z)).
  intros acc Hbs. destruct bs as [|a [|b [|c bs']]].
  - reflexivity.
  - apply Forall_cons in Hbs as [Ha _]. cbn [b64encode].
    rewrite a2b_pad2 by done. simpl. by rewrite <- ?app_assoc.
  - apply Forall_cons in Hbs as [Ha Hbs]. apply Forall_cons in Hbs as [Hb _].
    cbn [b64encode]. rewrite a2b_pad1 by done. simpl. by rewrite <- ?app_assoc.
  - apply Forall_cons in Hbs as [Ha Hbs]. apply Forall_cons in Hbs as [Hb Hbs].
    apply Forall_cons in Hbs as [Hc Hbs].
    cbn [b64encode app]. rewrite a2b_quad by done.
    rewrite IH by (done || (unfold ltof; simpl; lia)).
    replace (length (a :: b :: c :: bs') mod 3)%nat with (length bs' mod 3)%nat
      by (cbn [length]; replace (S (S (S (length bs')))) with (length bs' + 1 * 3)%nat
            by lia; symmetry; apply Nat.Div0.mod_add).
    destruct (length bs' mod 3 =? 0)%nat.
    + simpl. by rewrite <- ?app_assoc.
    + simpl. by rewrite <- ?app_assoc.
Qed.

End B64Facts.

Module B64Strings.
Import B64 B64Facts.

Lemma b2a_char_range v : 0 <= v < 64 -> 0 <= b2a_char v < 128.
Proof. intros Hv. unfold b2a_char. zbool. Qed.

Lemma ascii_codes_app s1 s2 :
  ascii_codes (s1 ++ s2) = ascii_codes s1 ++ ascii_codes s2.
Proof.
  induction s1 as [|a s1 IH]; [done |].
  change (String a s1 +:+ s2) with (String a (s1 +:+ s2)).
  unfold ascii_codes in *. cbn [list_ascii_of_string map]. by rewrite IH.
Qed.

Lemma ascii_codes_of_codes cs :
  Forall (fun c => 0 <= c < 256) cs -> ascii_codes (string_of_codes cs) = cs.
Proof.
  intros Hcs. unfold ascii_codes, string_of_codes.
  rewrite list_ascii_of_string_of_list_ascii, map_map.
  induction Hcs as [|c cs Hc _ IH]; [done |]. simpl. rewrite IH.
  rewrite N_ascii_embedding by lia. f_equal. lia.
Qed.

(** Every character of an encoding is the pad or an alphabet character. *)
Lemma b64encode_forall (P : Z -> Prop) bs :
  P BASE64_PAD -> (forall v, 0 <= v < 64 -> P (b2a_char v)) ->
  Forall is_byte bs -> Forall P (b64encode bs).
Proof.
  intros Hpad Hchar.
  induction bs as [bs IH] using (induction_ltof1 _ (@length Z)).
  intros Hbs. assert (H0 : is_byte 0) by (unfold is_byte; lia).
  destruct bs as [|a [|b [|c bs']]]; repeat apply Forall_cons in Hbs as [? Hbs].
  - constructor.
  - destruct (sextets_range a 0 0) as (? & ? & ? & ?); auto.
    repeat constructor; auto.
  - destruct (sextets_range a b 0) as (? & ? & ? & ?); auto.
    repeat constructor; auto.
  - destruct (sextets_range a b c) as (? & ? & ? & ?); auto.
    cbn [b64encode]. do 4 (constructor; [auto |]).
    apply IH; [unfold ltof; simpl; lia | done].
Qed.

Lemma b64encode_ascii bs :
  Forall is_byte bs -> Forall (fun c => 0 <= c < 128) (b64encode bs).
Proof.
  apply b64encode_forall; [unfold BASE64_PAD; lia | apply b2a_char_range].
Qed.

(** No comma (code 44) occurs in an encoding. *)
Lemma b64encode_no_comma bs :
  Forall is_byte bs -> Forall (fun c => c <> 44) (b64encode bs).
Proof.
  apply b64encode_forall; [unfold BASE64_PAD; lia |].
  intros v Hv. unfold b2a_char. zbool.
Qed.

Lemma ascii_codes_b64encode bs :
  Forall is_byte bs -> ascii_codes (string_of_codes (b64encode bs)) = b64encode bs.
Proof.
  intros Hbs. apply ascii_codes_of_codes.
  eapply Forall_impl; [by apply b64encode_ascii | simpl; lia].
Qed.

Lemma forallb_ascii cs :
  Forall (fun c => 0 <= c < 128) cs -> forallb (fun c => c <? 128) cs = true.
Proof.
  intros Hcs. apply forallb_forall. intros c Hc.
  apply Z.ltb_lt. rewrite List.Forall_forall in Hcs. by apply Hcs.
Qed.

(** A skipped character changes nothing, whatever the state. *)
Lemma a2b_junk_app x j y q l p acc :
  is_junk j = true ->
  a2b_loop (x ++ j :: y) q l p acc = a2b_loop (x ++ y) q l p acc.
Proof.
  intros Hj. revert q l p acc. induction x as [|c x IH]; intros q l p acc.
  - simpl. unfold is_junk in Hj. apply andb_prop in Hj as [Hnp Hge].
    apply negb_true_iff in Hnp. by rewrite Hnp, Hge.
  - simpl. repeat case_match; try reflexivity; apply IH.
Qed.

(** Without any pad character, the loop succeeds exactly when the data
    characters fill whole quads. *)
Lemma a2b_nopad s q l p acc :
  Forall (fun c => c <> BASE64_PAD) s -> 0 <= q <= 3 ->
  is_ok (a2b_loop s q l p acc) = ((q + Z.of_nat (data_count s)) mod 4 =? 0).
Proof.
  unfold data_count. revert q l p acc.
  induction s as [|c s IH]; intros q l p acc Hs Hq.
  - simpl. zbool.
  - apply Forall_cons in Hs as [Hc Hs]. cbn [a2b_loop List.filter].
    rewrite (proj2 (Z.eqb_neq c BASE64_PAD) Hc). simpl.
    destruct (Z.leb_spec 64 (table_a2b_base64 c)) as [Hj | Hd].
    + replace (table_a2b_base64 c <? 64) with false by (symmetry; apply Z.ltb_ge; lia).
      by apply IH.
    + replace (table_a2b_base64 c <? 64) with true by (symmetry; apply Z.ltb_lt; lia).
      cbn [length]. rewrite Nat2Z.inj_succ.
      destruct (Z.eqb_spec q 0); [|destruct (Z.eqb_spec q 1); [|destruct (Z.eqb_spec q 2)]];
        rewrite IH by (done || lia); f_equal; zlia.
Qed.

(** The decoder inverts the encoder, at the level of strings. *)
Lemma decode_encode bs :
  Forall is_byte bs -> b64decode (string_of_codes (b64encode bs)) = Ok bs.
Proof.
  intros Hbs. unfold b64decode, a2b_base64.
  rewrite ascii_codes_b64encode by done.
  rewrite forallb_ascii by (apply b64encode_ascii; done).
  rewrite <- (app_nil_r (b64encode bs)), a2b_encode_app by done.
  destruct (length bs mod 3 =? 0)%nat; simpl; by rewrite ?app_nil_r, ?rev_involutive.
Qed.

End B64Strings.

(** ** Properties of [b64decode] *)

Import B64 B64Facts B64Strings.

(** C10: decoding inverts the standard encoding: for every byte string
    [bs], [b64decode] of the padded Base64 text of [bs] returns [bs]. *)
Theorem b64decode_b64encode bs :
  Forall is_byte bs -> b64decode (string_of_codes (b64encode bs)) = Ok bs.
Proof. apply decode_encode. Qed.

Lemma b64decode_b64encode_witness :
  Forall is_byte [104; 105] /\ b64decode (string_of_codes (b64encode [104; 105])) = Ok [104; 105].
Proof.
  assert (H : Forall is_byte [104; 105]) by (repeat constructor; unfold is_byte; lia).
  split; [exact H | apply b64decode_b64encode; exact H].
Defined.

(** C20: with [validate=False] a character outside the Base64 alphabet
    (and not [=]) is skipped wherever it occurs: removing it does not
    change what [b64decode] returns. *)
Theorem b64decode_skips_junk x y j :
  (Z.of_N (N_of_ascii j) < 128) -> is_junk (Z.of_N (N_of_ascii j)) = true ->
  b64decode (x +:+ String j y) = b64decode (x +:+ y).
Proof.
  intros Hasc Hj. unfold b64decode, a2b_base64. rewrite !ascii_codes_app.
  change (ascii_codes (String j y)) with (Z.of_N (N_of_ascii j) :: ascii_codes y).
  rewrite !forallb_app. cbn [forallb]. rewrite (proj2 (Z.ltb_lt _ _) Hasc).
  by rewrite a2b_junk_app.
Qed.

Lemma b64decode_skips_junk_witness :
  (Z.of_N (N_of_ascii "!") < 128) /\ is_junk (Z.of_N (N_of_ascii "!")) = true /\
  b64decode ("aGVs" +:+ String "!" "bG8=") = b64decode ("aGVs" +:+ "bG8=").
Proof.
  split; [vm_compute; reflexivity | split; [vm_compute; reflexivity |]].
  apply b64decode_skips_junk; vm_compute; reflexivity.
Defined.

(** A padded quad ends decoding: when the length of [bs] is not a
    multiple of 3, any ASCII text after the Base64 text of [bs] is
    ignored and [b64decode] returns [bs]. *)
Theorem b64decode_stops_at_padding bs rest :
  Forall is_byte bs -> (length bs mod 3 <> 0)%nat ->
  forallb (fun c => c <? 128) (ascii_codes rest) = true ->
  b64decode (string_of_codes (b64encode bs) +:+ rest) = Ok bs.
Proof.
  intros Hbs Hlen Hrest. unfold b64decode, a2b_base64.
  rewrite ascii_codes_app, ascii_codes_b64encode, forallb_app, Hrest by done.
  rewrite forallb_ascii by (apply b64encode_ascii; done). simpl.
  rewrite a2b_encode_app by done.
  by destruct (Nat.eqb_spec (length bs mod 3) 0).
Qed.

Lemma b64decode_stops_at_padding_witness :
  Forall is_byte [104; 105] /\ (length [104; 105] mod 3 <> 0)%nat /\
  forallb (fun c => c <? 128) (ascii_codes "garbage") = true /\
  b64decode (string_of_codes (b64encode [104; 105]) +:+ "garbage") = Ok [104; 105].
Proof.
  assert (H : Forall is_byte [104; 105]) by (repeat constructor; unfold is_byte; lia).
  split; [exact H | split; [simpl; lia | split; [reflexivity |]]].
  apply b64decode_stops_at_padding; [exact H | simpl; lia | reflexivity].
Defined.

(** Without any [=], an ASCII payload decodes exactly when its
    number of alphabet characters is a multiple of 4; otherwise
    [b64decode] raises [binascii.Error]. *)
Theorem b64decode_nopad s :
  forallb (fun c => c <? 128) (ascii_codes s) = true ->
  Forall (fun c => c <> BASE64_PAD) (ascii_codes s) ->
  is_ok (b64decode s) = (Z.of_nat (data_count (ascii_codes s)) mod 4 =? 0).
Proof.
  intros Hasc Hnp. unfold b64decode, a2b_base64. rewrite Hasc.
  by rewrite a2b_nopad by (done || lia).
Qed.

Lemma b64decode_nopad_witness :
  forallb (fun c => c <? 128) (ascii_codes "abcde") = true /\
  Forall (fun c => c <> BASE64_PAD) (ascii_codes "abcde") /\
  is_ok (b64decode "abcde") = (Z.of_nat (data_count (ascii_codes "abcde")) mod 4 =? 0).
Proof.
  assert (H : Forall (fun c => c <> BASE64_PAD) (ascii_codes "abcde"))
    by (vm_compute; repeat constructor; discriminate).
  split; [reflexivity | split; [exact H |]].
  apply b64decode_nopad; [reflexivity | exact H].
Defined.
