(* ===== verification/Detection.v ===== *)
(** * The phone-detection gateway

    Models [process_image_for_phone_detection], [load_phone_detection_model],
    [detect_phone], [detect_phone_endpoint] and the status routes of
    src/backend/app.py.  The global [phone_detection_model] is the field
    of the same name of [gw_state]; [hub_loads] counts the calls made to
    [hub.load], so that "each call retries the load" is a statement about
    the state.  The imaging library (PIL, numpy, TensorFlow's tensor
    conversion) and the pretrained detector are the interfaces
    [ImageLib] and [Scorer]; [ImageLibLaws] states what the code relies
    on of PIL.  Exceptions are values of [pyres], and every [try]/[except]
    of the source is a [py_try]. *)

From S2P Require Import Prelude Base64.

Import B64.

(** ** Interfaces of the libraries the gateway calls *)

(** PIL as the gateway uses it: [Image.open(io.BytesIO(b))] (lazy
    header parsing, may raise), [image.mode], [image.convert('RGB')],
    [image.resize((w, h))] (which decode the pixels and may raise) and
    the size [(width, height)]. *)
Class ImageLib := {
  image : Type;
  image_open : list Z -> pyres image;
  image_mode : image -> string;
  image_convert_rgb : image -> pyres image;
  image_resize : Z * Z -> image -> pyres image;
  image_size : image -> Z * Z;
}.

Class ImageLibLaws `{ImageLib} := {
  convert_rgb_mode i i' : image_convert_rgb i = Ok i' -> image_mode i' = "RGB";
  resize_size wh i i' : image_resize wh i = Ok i' -> image_size i' = wh;
  resize_mode wh i i' : image_resize wh i = Ok i' -> image_mode i' = image_mode i;
}.

(** The trailing dimension numpy gives an image of each PIL mode. *)
Definition mode_bands (m : string) : list Z :=
  if String.eqb m "RGB" then [3%Z]
  else if String.eqb m "RGBA" then [4%Z]
  else if String.eqb m "CMYK" then [4%Z]
  else if String.eqb m "YCbCr" then [3%Z]
  else if String.eqb m "LA" then [2%Z]
  else [].

(** The TensorFlow value passed to the detector: its shape and the
    images of its batch. *)
Record tensor `{ImageLib} := Tensor { tensor_shape : list Z; tensor_images : list image }.
Arguments Tensor {_} _ _.
Arguments tensor_shape {_} _.
Arguments tensor_images {_} _.

(** The output dictionary of the SSD MobileNet signature, one entry per
    batch element: [detection_boxes], [detection_classes],
    [detection_scores]. *)
Record model_output := ModelOutput {
  detection_boxes : list (list (list Q));
  detection_classes : list (list Q);
  detection_scores : list (list Q);
}.

(** The detector: what the [n]-th call of [hub.load(model_handle)]
    returns or raises, and the call [phone_detection_model(tensor)]. *)
Class Scorer `{ImageLib} := {
  model : Type;
  hub_load : nat -> pyres model;
  run_model : model -> tensor -> pyres model_output;
}.

(** ** The gateway *)

(** One element of the [phone_detections] list. *)
Record detection := Detection { bbox : list Q; score : Q; det_class : string }.

(** The dict [detect_phone] returns: the detections and the timestamp,
    or an ["error"] entry. *)
Inductive detect_result :=
| DetOk (dets : list detection) (timestamp : Z)
| DetErr (msg : string).

Definition PHONE_THRESHOLD : Q := 1 # 2.
Definition PHONE_CLASS : Q := 77.

(** The loop [for i in range(len(scores))] of [detect_phone], run for
    [n] iterations from index [i]; [and] short-circuits, so [classes[i]]
    is read only for a score above the threshold and [boxes[i]] only for
    a detection. *)
Fixpoint phone_loop (n i : nat) (boxes : list (list Q)) (classes scores : list Q)
    (acc : list detection) : pyres (list detection) :=
  match n with
  | O => Ok acc
  | S n' =>
      (s <- py_index scores i ;;
       if Qle_bool PHONE_THRESHOLD s then
         (c <- py_index classes i ;;
          if Qeq_bool c PHONE_CLASS then
            (b <- py_index boxes i ;;
             phone_loop n' (S i) boxes classes scores
               (acc ++ [Detection b s "cell phone"]))
          else phone_loop n' (S i) boxes classes scores acc)
       else phone_loop n' (S i) boxes classes scores acc)%py
  end.

Definition filter_phones (boxes : list (list Q)) (classes scores : list Q)
    : pyres (list detection) :=
  phone_loop (length scores) 0 boxes classes scores [].

(** [str.split(',')] of a Python string. *)
Fixpoint split_char (sep : ascii) (s : string) : list string :=
  match s with
  | EmptyString => [EmptyString]
  | String a s' =>
      if Ascii.eqb a sep then EmptyString :: split_char sep s'
      else match split_char sep s' with
           | p :: ps => String a p :: ps
           | [] => [String a EmptyString]
           end
  end.

Definition str_contains_char (c : ascii) (s : string) : bool :=
  existsb (fun a => Ascii.eqb a c) (list_ascii_of_string s).

(** [sub in s] for two Python strings. *)
Fixpoint str_contains (sub s : string) : bool :=
  match s with
  | EmptyString => String.prefix sub EmptyString
  | String _ s' => String.prefix sub s || str_contains sub s'
  end.

(** The state the gateway shares across requests. *)
Record gw_state {IL : ImageLib} {SC : Scorer} := GwState {
  phone_detection_model : option model;
  hub_loads : nat;
}.
Arguments GwState {_ _} _ _.
Arguments phone_detection_model {_ _} _.
Arguments hub_loads {_ _} _.

Section Gateway.
Context {IL : ImageLib} {SC : Scorer}.

Definition to_batch_tensor (img : image) : tensor :=
  let '(w, h) := image_size img in
  Tensor (1%Z :: h :: w :: mode_bands (image_mode img)) [img].

(** The pipeline after the Base64 stage: open, convert to RGB when the
    mode differs, resize to 640x480, wrap as a batch of one. *)
Definition image_pipeline (image_bytes : list Z) : pyres tensor :=
  (image <- image_open image_bytes ;;
   image <- (if String.eqb (image_mode image) "RGB" then Ok image
             else image_convert_rgb image) ;;
   image <- image_resize (640%Z, 480%Z) image ;;
   Ok (to_batch_tensor image))%py.

(** [process_image_for_phone_detection(image_data)]: [None] when any
    step raises.  For a JSON value that is not a string, [',' in x],
    [x.split] or [b64decode(x)] raises, so the result is [None]. *)
Definition process_image_for_phone_detection (image_data : json) : option tensor :=
  match image_data with
  | JStr s =>
      py_try
        (s' <- (if str_contains_char "," s then py_index (split_char "," s) 1
                else Ok s) ;;
         image_bytes <- b64decode s' ;;
         t <- image_pipeline image_bytes ;;
         Ok (Some t))%py
        (fun _ => None)
  | _ => None
  end.

(** [load_phone_detection_model()]: the global is assigned only when
    [hub.load] returns; the exception is logged and [False] returned. *)
Definition load_phone_detection_model (st : gw_state) : bool * gw_state :=
  match hub_load (hub_loads st) with
  | Ok m => (true, GwState (Some m) (S (hub_loads st)))
  | Raise _ => (false, GwState (phone_detection_model st) (S (hub_loads st)))
  end.

Definition detection_json (d : detection) : json :=
  JObj [("bbox", JArr (map JNum (bbox d))); ("score", JNum (score d));
        ("class", JStr (det_class d))].

(** The body of the [try] of [detect_phone] once a model is loaded. *)
Definition run_detection (m : model) (image_tensor : tensor) (now_ms : Z)
    : pyres detect_result :=
  (detections <- run_model m image_tensor ;;
   boxes <- py_index (detection_boxes detections) 0 ;;
   classes <- py_index (detection_classes detections) 0 ;;
   scores <- py_index (detection_scores detections) 0 ;;
   phone_detections <- filter_phones boxes classes scores ;;
   Ok (DetOk phone_detections now_ms))%py.

(** [detect_phone(image_tensor)]; [now_ms] is [int(time.time() * 1000)]. *)
Definition detect_phone (image_tensor : tensor) (now_ms : Z) (st : gw_state)
    : detect_result * gw_state :=
  let '(loaded, st1) :=
    match phone_detection_model st with
    | None => load_phone_detection_model st
    | Some _ => (true, st)
    end in
  if negb loaded then (DetErr "Model not loaded", st1)
  else
    match phone_detection_model st1 with
    | Some m => (py_try (run_detection m image_tensor now_ms) (fun e => DetErr (exc_msg e)), st1)
    | None => (DetErr "'NoneType' object is not callable", st1)
    end.

(** [key in data] for a decoded JSON body. *)
Definition json_contains (data : json) (key : string) : pyres bool :=
  match data with
  | JObj kvs => Ok (existsb (fun kv => String.eqb kv.1 key) kvs)
  | JArr l => Ok (existsb (fun v => match v with JStr s => String.eqb s key | _ => false end) l)
  | JStr s => Ok (str_contains key s)
  | JNum _ => Raise (Exc TypeError "argument of type 'int' is not iterable")
  | JBool _ => Raise (Exc TypeError "argument of type 'bool' is not iterable")
  | JNull => Raise (Exc TypeError "argument of type 'NoneType' is not iterable")
  end.

(** [data[key]] for a decoded JSON body. *)
Definition json_getitem (data : json) (key : string) : pyres json :=
  match data with
  | JObj kvs =>
      match json_lookup key kvs with
      | Some v => Ok v
      | None => Raise (Exc KeyError key)
      end
  | JArr _ => Raise (Exc TypeError "list indices must be integers or slices, not str")
  | JStr _ => Raise (Exc TypeError "string indices must be integers, not 'str'")
  | _ => Raise (Exc TypeError "object is not subscriptable")
  end.

Definition detect_phone_json (r : detect_result) : json :=
  match r with
  | DetOk ds ts => JObj [("detections", JArr (map detection_json ds)); ("timestamp", JNum (inject_Z ts))]
  | DetErr msg => jerror msg
  end.

(** [detect_phone_endpoint()] for the request whose [request.get_json()]
    is [req] (an exception when the body is not JSON). *)
Definition detect_phone_endpoint (req : pyres json) (now_ms : Z) (st : gw_state)
    : response * gw_state :=
  let fail e := (jsonify_code (jerror (exc_msg e)) 500, st) in
  match req with
  | Raise e => fail e
  | Ok data =>
      if negb (json_truthy data) then
        (jsonify_code (jerror "No image data provided") 400, st)
      else
        match json_contains data "imageData" with
        | Raise e => fail e
        | Ok false => (jsonify_code (jerror "No image data provided") 400, st)
        | Ok true =>
            match json_getitem data "imageData" with
            | Raise e => fail e
            | Ok image_data =>
                match process_image_for_phone_detection image_data with
                | None => (jsonify_code (jerror "Failed to process image") 400, st)
                | Some image_tensor =>
                    let '(result, st') := detect_phone image_tensor now_ms st in
                    match result with
                    | DetErr _ => (jsonify_code (detect_phone_json result) 500, st')
                    | DetOk _ _ => (jsonify (detect_phone_json result), st')
                    end
                end
            end
        end
  end.

(** [phone_detection_status()] and [health_check()]. *)
Definition phone_detection_status (st : gw_state) : response :=
  jsonify (JObj [("status", JStr "ok");
                 ("modelLoaded", JBool (bool_decide (is_Some (phone_detection_model st))))]).

Definition health_check (st : gw_state) : response := phone_detection_status st.

(** [status()] and [api_status()]: liveness probes. *)
Definition status_route : response :=
  jsonify (JObj [("status", JStr "online"); ("message", JStr "Server is running")]).

Definition api_status : response :=
  jsonify (JObj [("status", JStr "online"); ("message", JStr "API is running")]).

(** The [__main__] block loads the model once before serving. *)
Definition gateway_startup : gw_state := snd (load_phone_detection_model (GwState None 0)).

End Gateway.

(** ** The reference filter *)

Module PhoneSpec.

(** The candidates the scorer reports, as Python's [zip] pairs them. *)
Fixpoint zip3 {A B C} (xs : list A) (ys : list B) (zs : list C) : list (A * B * C) :=
  match xs, ys, zs with
  | x :: xs', y :: ys', z :: zs' => (x, y, z) :: zip3 xs' ys' zs'
  | _, _, _ => []
  end.

(** A candidate is reported when its score reaches the threshold and its
    class is COCO's cell phone. *)
Definition is_phone (cand : list Q * Q * Q) : bool :=
  let '(_, c, s) := cand in Qle_bool PHONE_THRESHOLD s && Qeq_bool c PHONE_CLASS.

Definition to_detection (cand : list Q * Q * Q) : detection :=
  let '(b, _, s) := cand in Detection b s "cell phone".

Definition phones_spec (boxes : list (list Q)) (classes scores : list Q) : list detection :=
  map to_detection (List.filter is_phone (zip3 boxes classes scores)).

Lemma zip3_nil_r {A B C} (xs : list A) (ys : list B) :
  zip3 xs ys (@nil C) = [].
Proof. by destruct xs, ys. Qed.

Lemma phones_spec_cons boxes classes scores b c s :
  phones_spec (b :: boxes) (c :: classes) (s :: scores) =
  (if Qle_bool PHONE_THRESHOLD s && Qeq_bool c PHONE_CLASS
   then [Detection b s "cell phone"] else []) ++ phones_spec boxes classes scores.
Proof. unfold phones_spec. simpl. by destruct (_ && _). Qed.

(** The loop from index [i] produces the reference filter of the
    candidates from [i] on, whenever no index is out of range. *)
Lemma phone_loop_spec n i boxes classes scores acc :
  i + n = length scores -> length scores <= length classes ->
  length scores <= length boxes ->
  phone_loop n i boxes classes scores acc =
  Ok (acc ++ phones_spec (drop i boxes) (drop i classes) (drop i scores)).
Proof.
  revert i acc. induction n as [|n IH]; intros i acc Hn Hc Hb.
  - rewrite (drop_ge scores) by lia. unfold phones_spec.
    by rewrite zip3_nil_r, app_nil_r.
  - destruct (lookup_lt_is_Some_2 scores i) as [s Hs]; [lia |].
    destruct (lookup_lt_is_Some_2 classes i) as [c Hcl]; [lia |].
    destruct (lookup_lt_is_Some_2 boxes i) as [b Hbx]; [lia |].
    rewrite (drop_S scores s i Hs), (drop_S classes c i Hcl), (drop_S boxes b i Hbx).
    rewrite phones_spec_cons. cbn [phone_loop].
    rewrite (py_index_Some _ _ _ Hs). py_simp.
    destruct (Qle_bool PHONE_THRESHOLD s); simpl;
      [rewrite (py_index_Some _ _ _ Hcl); py_simp; destruct (Qeq_bool c PHONE_CLASS); simpl;
       [rewrite (py_index_Some _ _ _ Hbx); py_simp |] |];
      rewrite IH by lia; by rewrite <- ?app_assoc.
Qed.

End PhoneSpec.

(** ** Lemmas on the payload handling *)

Module PayloadFacts.
Import B64Facts B64Strings.

Lemma str_contains_char_app c x y :
  str_contains_char c (x +:+ y) = str_contains_char c x || str_contains_char c y.
Proof.
  induction x as [|a x IH]; [done |].
  change (String a x +:+ y) with (String a (x +:+ y)).
  unfold str_contains_char in *. simpl. rewrite IH. by rewrite orb_assoc.
Qed.

Lemma split_char_no_sep c s :
  str_contains_char c s = false -> split_char c s = [s].
Proof.
  induction s as [|a s IH]; [done |].
  unfold str_contains_char. simpl. intros [Ha Hs]%orb_false_elim.
  rewrite Ha, IH by done. reflexivity.
Qed.

Lemma split_char_app c x y :
  str_contains_char c x = false -> split_char c (x +:+ String c y) = x :: split_char c y.
Proof.
  induction x as [|a x IH]; intros Hx.
  - simpl. by rewrite Ascii.eqb_refl.
  - change (String a x +:+ String c y) with (String a (x +:+ String c y)).
    unfold str_contains_char in Hx. simpl in Hx. apply orb_false_elim in Hx as [Ha Hx].
    simpl. rewrite Ha, IH by done. reflexivity.
Qed.

Lemma str_contains_comma_codes cs :
  Forall (fun c => (0 <= c < 256)%Z /\ c <> 44%Z) cs ->
  str_contains_char "," (string_of_codes cs) = false.
Proof.
  unfold str_contains_char, string_of_codes.
  rewrite list_ascii_of_string_of_list_ascii.
  induction 1 as [|c cs [Hc Hnc] _ IH]; [done |]. simpl. rewrite IH, orb_false_r.
  destruct (Ascii.eqb_spec (ascii_of_N (Z.to_N c)) ",") as [Heq | ]; [| done].
  exfalso. apply (f_equal N_of_ascii) in Heq.
  rewrite N_ascii_embedding in Heq by lia. simpl in Heq. lia.
Qed.

Lemma b64encode_no_comma_string bs :
  Forall is_byte bs -> str_contains_char "," (string_of_codes (b64encode bs)) = false.
Proof.
  intros Hbs. apply str_contains_comma_codes.
  apply Forall_and; split.
  - eapply Forall_impl; [by apply b64encode_ascii | simpl; lia].
  - by apply b64encode_no_comma.
Qed.

(** A data URL [header,payload] whose header has no comma is cut to its
    payload. *)
Lemma strip_header hdr payload :
  str_contains_char "," hdr = false -> str_contains_char "," payload = false ->
  (if str_contains_char "," (hdr +:+ String "," payload)
   then py_index (split_char "," (hdr +:+ String "," payload)) 1
   else Ok (hdr +:+ String "," payload)) = Ok payload.
Proof.
  intros Hh Hp. rewrite str_contains_char_app, Hh.
  change (str_contains_char "," (String "," payload))
    with (Ascii.eqb "," "," || str_contains_char "," payload).
  rewrite Ascii.eqb_refl. simpl.
  rewrite split_char_app, split_char_no_sep by done. reflexivity.
Qed.

End PayloadFacts.

(** ** Lemmas on the loop and the gateway *)

Module GatewayFacts.
Import PhoneSpec.

(** Whether iteration [j] of the loop can index everything it reads. *)
Definition index_safe (boxes : list (list Q)) (classes scores : list Q) (j : nat) : bool :=
  match scores !! j with
  | Some s =>
      if Qle_bool PHONE_THRESHOLD s then
        match classes !! j with
        | Some c => if Qeq_bool c PHONE_CLASS then bool_decide (is_Some (boxes !! j)) else true
        | None => false
        end
      else true
  | None => true
  end.

(** The loop raises exactly when one of its iterations indexes out of
    range. *)
Lemma phone_loop_ok n i boxes classes scores acc :
  i + n <= length scores ->
  is_ok (phone_loop n i boxes classes scores acc) =
  forallb (index_safe boxes classes scores) (seq i n).
Proof.
  revert i acc. induction n as [|n IH]; intros i acc Hn; [done |].
  destruct (lookup_lt_is_Some_2 scores i) as [s Hs]; [lia |].
  cbn [phone_loop seq forallb]. unfold index_safe at 1. rewrite Hs.
  rewrite (py_index_Some _ _ _ Hs). py_simp.
  destruct (Qle_bool PHONE_THRESHOLD s); [| by apply IH; lia].
  unfold py_index. destruct (classes !! i) as [c|]; [| done]. py_simp.
  destruct (Qeq_bool c PHONE_CLASS); [| by apply IH; lia].
  destruct (boxes !! i) as [b|]; py_simp; [by apply IH; lia | done].
Qed.

Section WithLibs.
Context {IL : ImageLib} {SC : Scorer}.

Lemma image_pipeline_shape `{!ImageLibLaws} bs t :
  image_pipeline bs = Ok t -> tensor_shape t = [1; 480; 640; 3]%Z.
Proof.
  unfold image_pipeline. intros Hp.
  apply pbind_Ok_inv in Hp as (i0 & _ & Hp).
  apply pbind_Ok_inv in Hp as (i1 & Hrgb & Hp).
  apply pbind_Ok_inv in Hp as (i2 & Hres & Hp). injection Hp as <-.
  assert (Hmode : image_mode i1 = "RGB").
  { destruct (String.eqb_spec (image_mode i0) "RGB") as [E|_].
    - injection Hrgb as <-. exact E.
    - by eapply convert_rgb_mode. }
  unfold to_batch_tensor. rewrite (resize_size _ _ _ Hres).
  simpl. by rewrite (resize_mode _ _ _ Hres), Hmode.
Qed.

Lemma process_image_Some_inv j t :
  process_image_for_phone_detection j = Some t -> exists bs, image_pipeline bs = Ok t.
Proof.
  destruct j as [| | |s| |]; try discriminate. simpl.
  destruct (if str_contains_char "," s then _ else _) as [s'|]; [| discriminate]. simpl.
  destruct (b64decode s') as [bs|]; [| discriminate]. simpl.
  destruct (image_pipeline bs) as [t'|] eqn:E; [| discriminate]. simpl.
  intros [= ->]. eauto.
Qed.

Lemma detect_phone_loaded t now st m :
  phone_detection_model st = Some m ->
  detect_phone t now st = (py_try (run_detection m t now) (fun e => DetErr (exc_msg e)), st).
Proof. intros Hm. unfold detect_phone. by rewrite Hm, Hm. Qed.

Lemma detect_phone_unloaded t now st :
  phone_detection_model st = None ->
  detect_phone t now st =
  match hub_load (hub_loads st) with
  | Ok m => (py_try (run_detection m t now) (fun e => DetErr (exc_msg e)),
             GwState (Some m) (S (hub_loads st)))
  | Raise _ => (DetErr "Model not loaded", GwState None (S (hub_loads st)))
  end.
Proof.
  intros Hm. unfold detect_phone, load_phone_detection_model. rewrite Hm.
  by destruct (hub_load (hub_loads st)).
Qed.

End WithLibs.
End GatewayFacts.

(** ** Properties of the gateway *)

Import PhoneSpec GatewayFacts PayloadFacts B64Facts B64Strings.

Section Claims.
Context {IL : ImageLib} {SC : Scorer}.

(** Successive calls of [detect_phone] on one process state, as the
    requests of one client arrive. *)
Fixpoint detect_phone_seq (calls : list (tensor * Z)) (st : gw_state)
    : list detect_result * gw_state :=
  match calls with
  | [] => ([], st)
  | (t, now) :: rest =>
      let '(r, st1) := detect_phone t now st in
      let '(rs, st2) := detect_phone_seq rest st1 in
      (r :: rs, st2)
  end.

(** C1: the detection loop computes the reference filter: when the
    scorer reports at least as many boxes and classes as scores, the
    result is the candidates with score >= 0.5 and class 77, in the
    scorer's order. *)
Theorem filter_phones_reference boxes classes scores :
  length scores <= length classes -> length scores <= length boxes ->
  filter_phones boxes classes scores = Ok (phones_spec boxes classes scores).
Proof.
  intros Hc Hb. unfold filter_phones.
  rewrite phone_loop_spec by lia. by rewrite !drop_0.
Qed.

(** C12: the detection loop raises exactly when an iteration reads an
    index that is out of range: [classes[i]] for a score at or above the
    threshold, [boxes[i]] for a detection. *)
Theorem filter_phones_ok_iff boxes classes scores :
  is_ok (filter_phones boxes classes scores) =
  forallb (index_safe boxes classes scores) (seq 0 (length scores)).
Proof. unfold filter_phones. apply phone_loop_ok. lia. Qed.

(** C7: a failed load is not cached: while [hub.load] keeps failing,
    each call of [detect_phone] makes exactly one load attempt, answers
    ["Model not loaded"], and leaves the handle unset. *)
Theorem detect_phone_retries_load calls st :
  phone_detection_model st = None ->
  (forall j, j < length calls -> is_ok (hub_load (hub_loads st + j)) = false) ->
  detect_phone_seq calls st =
  (map (fun _ => DetErr "Model not loaded") calls,
   GwState None (hub_loads st + length calls)).
Proof.
  revert st. induction calls as [|[t now] calls IH]; intros st Hm Hfail.
  - destruct st; simpl in *. subst. by rewrite Nat.add_0_r.
  - cbn [detect_phone_seq]. rewrite detect_phone_unloaded by done.
    assert (Hf0 : is_ok (hub_load (hub_loads st)) = false).
    { rewrite <- (Nat.add_0_r (hub_loads st)). apply Hfail. simpl. lia. }
    destruct (hub_load (hub_loads st)); [discriminate |].
    rewrite IH; [simpl; f_equal; f_equal; lia | done |].
    intros j Hj. simpl. replace (S (hub_loads st + j)) with (hub_loads st + S j) by lia.
    apply Hfail. simpl. lia.
Qed.

(** C13: a loaded model is never reloaded nor dropped: from a state whose
    handle is set, any sequence of [detect_phone] calls leaves the state
    unchanged. *)
Theorem detect_phone_loads_once calls st m :
  phone_detection_model st = Some m -> snd (detect_phone_seq calls st) = st.
Proof.
  revert st. induction calls as [|[t now] calls IH]; intros st Hm; [done |].
  cbn [detect_phone_seq]. rewrite (detect_phone_loaded _ _ _ m) by done.
  specialize (IH st Hm). destruct (detect_phone_seq calls st). exact IH.
Qed.

End Claims.

Section EndpointClaims.
Context {IL : ImageLib} {SC : Scorer}.

Lemma json_lookup_Some_contains k kvs v :
  json_lookup k kvs = Some v -> existsb (fun kv => String.eqb kv.1 k) kvs = true.
Proof.
  revert v. induction kvs as [|[k' v'] kvs IH]; intros v; simpl; [discriminate |].
  destruct (json_lookup k kvs) as [w|] eqn:E.
  - intros _. rewrite (IH w eq_refl). by rewrite orb_true_r.
  - destruct (String.eqb_spec k k') as [-> |]; [| discriminate].
    by rewrite String.eqb_refl.
Qed.

(** A JSON object carrying [imageData] reaches the image processing. *)
Lemma endpoint_dispatch kvs v now st :
  json_lookup "imageData" kvs = Some v ->
  detect_phone_endpoint (Ok (JObj kvs)) now st =
  match process_image_for_phone_detection v with
  | None => (jsonify_code (jerror "Failed to process image") 400, st)
  | Some image_tensor =>
      let '(result, st') := detect_phone image_tensor now st in
      match result with
      | DetErr _ => (jsonify_code (detect_phone_json result) 500, st')
      | DetOk _ _ => (jsonify (detect_phone_json result), st')
      end
  end.
Proof.
  intros Hl. unfold detect_phone_endpoint.
  destruct kvs as [|kv kvs']; [discriminate |]. simpl json_truthy. cbn iota beta.
  unfold json_contains. rewrite (json_lookup_Some_contains _ _ _ Hl).
  unfold json_getitem. by rewrite Hl.
Qed.

(** C8: a payload the image processing rejects is answered 400 with
    ["Failed to process image"], and the gateway state is untouched: no
    model load and no model call happen. *)
Theorem endpoint_rejects_unprocessable kvs v now st :
  json_lookup "imageData" kvs = Some v ->
  process_image_for_phone_detection v = None ->
  detect_phone_endpoint (Ok (JObj kvs)) now st =
  (jsonify_code (jerror "Failed to process image") 400, st).
Proof. intros Hl Hp. rewrite (endpoint_dispatch _ v) by done. by rewrite Hp. Qed.

(** C11: a browser data URL [header,base64] whose header has no comma
    hands exactly the encoded bytes to [Image.open]: the payload stage
    of [process_image_for_phone_detection] is transparent. *)
Theorem process_image_data_url hdr bs :
  str_contains_char "," hdr = false -> Forall is_byte bs ->
  process_image_for_phone_detection (JStr (hdr +:+ String "," (string_of_codes (b64encode bs)))) =
  py_try (t <- image_pipeline bs ;; Ok (Some t))%py (fun _ => None).
Proof.
  intros Hh Hbs. unfold process_image_for_phone_detection.
  rewrite strip_header by (done || by apply b64encode_no_comma_string).
  simpl. by rewrite decode_encode.
Qed.

(** C23: every tensor the gateway builds is one 480x640 RGB image in a
    batch: shape [1; 480; 640; 3]. *)
Theorem process_image_shape `{!ImageLibLaws} j t :
  process_image_for_phone_detection j = Some t -> tensor_shape t = [1; 480; 640; 3]%Z.
Proof.
  intros Hp. destruct (process_image_Some_inv _ _ Hp) as [bs Hbs].
  by eapply image_pipeline_shape.
Qed.

(** C28: the endpoint answers only 200, 400 or 500. *)
Theorem endpoint_status_codes req now st :
  status (fst (detect_phone_endpoint req now st)) ∈ [200; 400; 500].
Proof.
  unfold detect_phone_endpoint. apply list_elem_of_In.
  repeat case_match; simpl; tauto.
Qed.

(** C21: end to end, a processable payload and a loaded model whose
    output is well formed give 200 with exactly the reference filter of
    the candidates and the request's timestamp, and no state change. *)
Theorem endpoint_success kvs v t now st m out boxes classes scores :
  json_lookup "imageData" kvs = Some v ->
  process_image_for_phone_detection v = Some t ->
  phone_detection_model st = Some m -> run_model m t = Ok out ->
  detection_boxes out !! 0 = Some boxes -> detection_classes out !! 0 = Some classes ->
  detection_scores out !! 0 = Some scores ->
  length scores <= length classes -> length scores <= length boxes ->
  detect_phone_endpoint (Ok (JObj kvs)) now st =
  (jsonify (detect_phone_json (DetOk (phones_spec boxes classes scores) now)), st).
Proof.
  intros Hl Hp Hm Hrun Hb Hc Hs Hlc Hlb.
  rewrite (endpoint_dispatch _ v), Hp by done.
  rewrite (detect_phone_loaded _ _ _ m) by done.
  unfold run_detection. rewrite Hrun. py_simp.
  rewrite (py_index_Some _ _ _ Hb), (py_index_Some _ _ _ Hc), (py_index_Some _ _ _ Hs). py_simp.
  unfold filter_phones. rewrite phone_loop_spec by lia. by rewrite !drop_0.
Qed.

(** C22: an exception of the model is caught: the endpoint answers 500
    with [str(e)] and the loaded model stays loaded. *)
Theorem endpoint_inference_error kvs v t now st m e :
  json_lookup "imageData" kvs = Some v ->
  process_image_for_phone_detection v = Some t ->
  phone_detection_model st = Some m -> run_model m t = Raise e ->
  detect_phone_endpoint (Ok (JObj kvs)) now st = (jsonify_code (jerror (exc_msg e)) 500, st).
Proof.
  intros Hl Hp Hm Hrun.
  rewrite (endpoint_dispatch _ v), Hp by done.
  rewrite (detect_phone_loaded _ _ _ m) by done.
  unfold run_detection. by rewrite Hrun.
Qed.

End EndpointClaims.

(** ** Test doubles and witnesses *)

(** A stand-in for PIL: a payload starting with ['P'] opens as a 1280x720
    RGBA image, anything else is unidentified. *)
Record toy_image := ToyImage { toy_mode : string; toy_size : Z * Z }.

Definition toy_lib : ImageLib := {|
  image := toy_image;
  image_open bs := match bs with
                   | 80%Z :: _ => Ok (ToyImage "RGBA" (1280, 720)%Z)
                   | _ => Raise (Exc UnidentifiedImageError "cannot identify image file")
                   end;
  image_mode := toy_mode;
  image_convert_rgb i := Ok (ToyImage "RGB" (toy_size i));
  image_resize wh i := Ok (ToyImage (toy_mode i) wh);
  image_size := toy_size;
|}.

Lemma toy_lib_laws : @ImageLibLaws toy_lib.
Proof. split; simpl; intros *; intros [= <-]; reflexivity. Qed.

Definition toy_output : model_output :=
  ModelOutput [[[0; 0; 1; 1]; [0; 0; 1; 1]; [0; 0; 1; 1]]%Q]
              [[77; 77; 77]%Q] [[49 # 100; 1 # 2; 9 # 10]%Q].

(** A stand-in for the hub model: the first download fails, later ones
    succeed; the model reports three class-77 candidates. *)
Definition toy_scorer : @Scorer toy_lib := {|
  model := unit;
  hub_load n := match n with O => Raise (Exc OSError "URL fetch failure") | S _ => Ok tt end;
  run_model _ _ := Ok toy_output;
|}.

(** A model whose call raises. *)
Definition toy_broken_scorer : @Scorer toy_lib := {|
  model := unit;
  hub_load _ := Ok tt;
  run_model _ _ := Raise (Exc ModelError "Graph execution error");
|}.

Section Witnesses.
#[local] Existing Instance toy_lib.
#[local] Existing Instance toy_lib_laws.
#[local] Existing Instance toy_scorer.

Definition toy_tensor : tensor := Tensor [1; 480; 640; 3]%Z [ToyImage "RGB" (640, 480)%Z].

Lemma filter_phones_reference_witness :
  length [49 # 100; 1 # 2; 9 # 10]%Q <= length [77; 77; 77]%Q /\
  length [49 # 100; 1 # 2; 9 # 10]%Q <= length [[0; 0; 1; 1]; [0; 0; 2; 2]; [0; 0; 3; 3]]%Q /\
  filter_phones [[0; 0; 1; 1]; [0; 0; 2; 2]; [0; 0; 3; 3]]%Q [77; 77; 77]%Q [49 # 100; 1 # 2; 9 # 10]%Q
  = Ok [Detection [0; 0; 2; 2]%Q (1 # 2) "cell phone"; Detection [0; 0; 3; 3]%Q (9 # 10) "cell phone"].
Proof.
  split; [simpl; lia | split; [simpl; lia |]].
  rewrite filter_phones_reference by (simpl; lia). reflexivity.
Defined.

Lemma detect_phone_retries_load_witness :
  phone_detection_model (GwState None 0) = None /\
  (forall j, j < length [(toy_tensor, 5%Z)] -> is_ok (hub_load (hub_loads (GwState None 0) + j)) = false) /\
  detect_phone_seq [(toy_tensor, 5%Z)] (GwState None 0) =
  ([DetErr "Model not loaded"], GwState None 1).
Proof.
  assert (Hf : forall j, j < length [(toy_tensor, 5%Z)] ->
            is_ok (hub_load (hub_loads (GwState None 0) + j)) = false).
  { intros j Hj. simpl in Hj. assert (j = 0) as -> by lia. reflexivity. }
  split; [reflexivity | split; [exact Hf |]].
  apply (detect_phone_retries_load [(toy_tensor, 5%Z)] (GwState None 0) eq_refl Hf).
Defined.

Lemma detect_phone_loads_once_witness :
  phone_detection_model (GwState (Some tt) 1) = Some tt /\
  snd (detect_phone_seq [(toy_tensor, 1%Z); (toy_tensor, 2%Z)] (GwState (Some tt) 1)) = GwState (Some tt) 1.
Proof. split; [reflexivity | by apply (@detect_phone_loads_once toy_lib toy_scorer _ _ tt)]. Defined.

Lemma endpoint_rejects_unprocessable_witness :
  json_lookup "imageData" [("imageData", JStr "abcde")] = Some (JStr "abcde") /\
  process_image_for_phone_detection (JStr "abcde") = None /\
  detect_phone_endpoint (Ok (JObj [("imageData", JStr "abcde")])) 7%Z (GwState None 0) =
  (jsonify_code (jerror "Failed to process image") 400, GwState None 0).
Proof.
  split; [reflexivity | split; [vm_compute; reflexivity |]].
  apply (endpoint_rejects_unprocessable _ (JStr "abcde")); [reflexivity | vm_compute; reflexivity].
Defined.

Lemma process_image_data_url_witness :
  str_contains_char "," "data:image/png;base64" = false /\ Forall is_byte [80; 78; 71]%Z /\
  process_image_for_phone_detection
    (JStr ("data:image/png;base64" +:+ String "," (string_of_codes (b64encode [80; 78; 71]%Z)))) =
  py_try (t <- image_pipeline [80; 78; 71]%Z ;; Ok (Some t))%py (fun _ => None).
Proof.
  assert (Hb : Forall is_byte [80; 78; 71]%Z) by (repeat constructor; unfold is_byte; lia).
  split; [reflexivity | split; [exact Hb |]].
  apply process_image_data_url; [reflexivity | exact Hb].
Defined.

Lemma process_image_shape_witness :
  process_image_for_phone_detection (JStr "UE5H") = Some toy_tensor /\
  tensor_shape toy_tensor = [1; 480; 640; 3]%Z.
Proof.
  assert (Hp : process_image_for_phone_detection (JStr "UE5H") = Some toy_tensor)
    by (vm_compute; reflexivity).
  split; [exact Hp | exact (process_image_shape _ _ Hp)].
Defined.

Lemma endpoint_success_witness :
  detect_phone_endpoint (Ok (JObj [("imageData", JStr "data:image/png;base64,UE5H")])) 9%Z
    (GwState (Some tt) 1) =
  (jsonify (detect_phone_json (DetOk (phones_spec [[0; 0; 1; 1]; [0; 0; 1; 1]; [0; 0; 1; 1]]%Q
                                   [77; 77; 77]%Q [49 # 100; 1 # 2; 9 # 10]%Q) 9%Z)),
   GwState (Some tt) 1).
Proof.
  apply (@endpoint_success toy_lib toy_scorer _ (JStr "data:image/png;base64,UE5H") toy_tensor _ _ tt toy_output);
    try reflexivity; try (vm_compute; reflexivity); simpl; lia.
Defined.

End Witnesses.

Section BrokenModelWitness.
#[local] Existing Instance toy_lib.
#[local] Existing Instance toy_broken_scorer.

Lemma endpoint_inference_error_witness :
  detect_phone_endpoint (Ok (JObj [("imageData", JStr "UE5H")])) 9%Z (GwState (Some tt) 1) =
  (jsonify_code (jerror "Graph execution error") 500, GwState (Some tt) 1).
Proof.
  apply (@endpoint_inference_error toy_lib toy_broken_scorer _ (JStr "UE5H") (@Tensor toy_lib [1; 480; 640; 3]%Z [ToyImage "RGB" (640, 480)%Z])
           _ _ tt (Exc ModelError "Graph execution error"));
    try reflexivity; vm_compute; reflexivity.
Defined.

End BrokenModelWitness.
