(* ===== verification/Metrics.v ===== *)
(** * The simulated drowsiness metrics

    Models the global [drowsiness_data] of src/backend/app.py (lines
    31-38) and the body of the loop of [simulate_drowsiness_detection]
    (lines 160-176).  Python's [random] module is the interface
    [RandomSource]: a generator state with [random()] and
    [_randbelow(n)], from which [uniform] and [randint] are defined as
    CPython defines them.  [RandomLaws] states their ranges.  Floats
    are exact rationals here; CPython computes [a + (b - a) * random()]
    in doubles, whose rounding can return [b] itself (for [random() =
    1 - 2 ** -53]), so the ranges stated of [uniform] are closed at both
    ends, as Python documents them, and no theorem relies on the exact
    arithmetic excluding [b].  The
    [dict.update] with a literal of six keys replaces every field at once
    (it runs without releasing the GIL), so a publication is the
    replacement of the whole record. *)

From S2P Require Import Prelude.
From Stdlib Require Import Lqa.

(** ** The metrics record *)

Record drowsiness := Drowsiness {
  is_drowsy : bool;
  confidence : Q;
  eye_aspect_ratio : Q;
  yawn_count : Z;
  blink_count : Z;
  timestamp : Z;
}.

(** The value of [drowsiness_data] before the first update. *)
Definition drowsiness_init : drowsiness :=
  Drowsiness false 0 0 0 0 0.

(** [jsonify(drowsiness_data)]: the flat record of six keys. *)
Definition drowsiness_json (d : drowsiness) : json :=
  JObj [("is_drowsy", JBool (is_drowsy d)); ("confidence", JNum (confidence d));
        ("eye_aspect_ratio", JNum (eye_aspect_ratio d));
        ("yawn_count", JNum (inject_Z (yawn_count d)));
        ("blink_count", JNum (inject_Z (blink_count d)));
        ("timestamp", JNum (inject_Z (timestamp d)))].

(** [get_drowsiness_data()]. *)
Definition get_drowsiness_data (d : drowsiness) : response := jsonify (drowsiness_json d).

(** ** Python's [random] *)

Class RandomSource := {
  rng : Type;
  random : rng -> Q * rng;
  randbelow : Z -> rng -> Z * rng;
}.

Class RandomLaws `{RandomSource} := {
  random_range g : (0 <= fst (random g) < 1)%Q;
  randbelow_range n g : (0 < n)%Z -> (0 <= fst (randbelow n g) < n)%Z;
}.

Section Simulator.
Context `{RandomSource}.

(** [random.uniform(a, b)]: [a + (b - a) * self.random()]. *)
Definition uniform (a b : Q) (g : rng) : Q * rng :=
  let '(r, g') := random g in ((a + (b - a) * r)%Q, g').

(** [random.randint(a, b)]: [randrange(a, b + 1)], i.e.
    [a + self._randbelow(b - a + 1)]. *)
Definition randint (a b : Z) (g : rng) : Z * rng :=
  let '(k, g') := randbelow (b - a + 1)%Z g in ((a + k)%Z, g').

(** One iteration of the loop: the five draws in the order of the
    source, then the record with [int(time.time() * 1000)] =
    [now_ms]. *)
Definition generate_metrics (now_ms : Z) (g : rng) : drowsiness * rng :=
  let '(r, g1) := random g in
  let is_drowsy := negb (Qle_bool (1 # 5) r) in
  let '(confidence, g2) := uniform (7 # 10) (19 # 20) g1 in
  let '(eye_aspect_ratio, g3) := uniform (1 # 5) (3 # 10) g2 in
  let '(yawn_count, g4) := randint 0 5 g3 in
  let '(blink_count, g5) := randint 10 30 g4 in
  (Drowsiness is_drowsy confidence eye_aspect_ratio yawn_count blink_count now_ms, g5).

End Simulator.

(** The ranges a published record lies in. *)
Definition metrics_in_range (d : drowsiness) : Prop :=
  (7 # 10 <= confidence d <= 19 # 20)%Q /\
  (1 # 5 <= eye_aspect_ratio d <= 3 # 10)%Q /\
  (0 <= yawn_count d <= 5)%Z /\ (10 <= blink_count d <= 30)%Z.

(** What a reader of [drowsiness_data] can see: the initial record or a
    record of one iteration. *)
Definition metrics_ok (d : drowsiness) : Prop :=
  d = drowsiness_init \/ metrics_in_range d.

(** ** Lemmas *)

Section Facts.
Context `{RandomLaws}.

Lemma uniform_range a b g :
  (a <= b)%Q -> (a <= fst (uniform a b g) <= b)%Q.
Proof.
  intros Hab. unfold uniform. destruct (random g) as [r g'] eqn:E. simpl.
  pose proof (random_range g) as Hr. rewrite E in Hr. simpl in Hr.
  split; nra.
Qed.

Lemma randint_range a b g :
  (a <= b)%Z -> (a <= fst (randint a b g) <= b)%Z.
Proof.
  intros Hab. unfold randint.
  pose proof (randbelow_range (b - a + 1) g) as Hk.
  destruct (randbelow (b - a + 1) g) as [k g']. simpl in *. lia.
Qed.

End Facts.

Section Ranges.
Context `{RandomLaws}.

(** Every record one iteration publishes lies in the ranges. *)
Lemma generate_metrics_range now g : metrics_in_range (fst (generate_metrics now g)).
Proof.
  unfold generate_metrics.
  destruct (random g) as [r g1].
  destruct (uniform (7 # 10) (19 # 20) g1) as [conf g2] eqn:E2.
  destruct (uniform (1 # 5) (3 # 10) g2) as [ear g3] eqn:E3.
  destruct (randint 0 5 g3) as [yawn g4] eqn:E4.
  destruct (randint 10 30 g4) as [blink g5] eqn:E5. simpl.
  pose proof (uniform_range (7 # 10) (19 # 20) g1) as R2. rewrite E2 in R2.
  pose proof (uniform_range (1 # 5) (3 # 10) g2) as R3. rewrite E3 in R3.
  pose proof (randint_range 0 5 g3) as R4. rewrite E4 in R4.
  pose proof (randint_range 10 30 g4) as R5. rewrite E5 in R5.
  simpl in *. repeat split; try apply R2; try apply R3; try (apply R4; lia);
    try (apply R5; lia); unfold Qle; simpl; lia.
Qed.

End Ranges.

(** ** Properties of the simulator *)

(** C18: one iteration of [simulate_drowsiness_detection] publishes a
    record whose fields lie in the ranges of the draws (confidence in
    [0.7, 0.95], eye aspect ratio in [0.2, 0.3], both closed since the
    rounding of a double can reach the upper end, yawns in 0..5, blinks in
    10..30), stamped with the current time, and drowsy exactly when the
    first draw is below 0.2. *)
Theorem generate_metrics_spec `{RandomLaws} now g :
  metrics_in_range (fst (generate_metrics now g)) /\
  timestamp (fst (generate_metrics now g)) = now /\
  (is_drowsy (fst (generate_metrics now g)) = true <-> (fst (random g) < 1 # 5)%Q).
Proof.
  split; [apply generate_metrics_range |].
  unfold generate_metrics. destruct (random g) as [r g1]. simpl.
  destruct (uniform _ _ g1) as [? g2], (uniform _ _ g2) as [? g3],
    (randint _ _ g3) as [? g4], (randint _ _ g4) as [? g5]. simpl.
  split; [done |]. rewrite negb_true_iff.
  split; intros Hr.
  - apply Qnot_le_lt. intros Hle. apply Qle_bool_iff in Hle. congruence.
  - destruct (Qle_bool (1 # 5) r) eqn:E; [| done].
    apply Qle_bool_iff in E. exfalso. by apply (Qlt_not_le _ _ Hr).
Qed.

(** A deterministic stand-in for [random]: the generator state counts
    the draws. *)
Definition toy_random : RandomSource := {|
  rng := nat;
  random n := ((Z.of_nat (n mod 10) # 10)%Q, S n);
  randbelow k n := ((Z.of_nat n mod k)%Z, S n);
|}.

Lemma toy_random_laws : @RandomLaws toy_random.
Proof.
  split; simpl.
  - intros n. unfold Qle, Qlt. simpl. pose proof (Nat.mod_upper_bound n 10). lia.
  - intros k n Hk. apply Z.mod_pos_bound. exact Hk.
Qed.

Lemma generate_metrics_spec_witness :
  metrics_in_range (fst (@generate_metrics toy_random 1000%Z 3%nat)) /\
  timestamp (fst (@generate_metrics toy_random 1000%Z 3%nat)) = 1000%Z /\
  (is_drowsy (fst (@generate_metrics toy_random 1000%Z 3%nat)) = true <->
   (fst (@random toy_random 3%nat) < 1 # 5)%Q).
Proof. exact (@generate_metrics_spec toy_random toy_random_laws 1000%Z 3%nat). Defined.
