(* ===== verification/Lifecycle.v ===== *)
(** * Start, stop and the metrics thread

    Models [start_detection] (src/backend/app.py, lines 191-208),
    [stop_detection] (lines 210-221), [get_drowsiness_data] (lines
    223-226) and the thread running [simulate_drowsiness_detection]
    (lines 156-179), over the globals [is_detection_running],
    [detection_thread], [camera] and [drowsiness_data] gathered in the
    record [world].

    Flask serves requests on threads ([threaded=True]) and the metrics
    loop is a thread of its own, so the model is an interleaving
    semantics: a configuration is the world and a pool of threads, and
    [step] lets one thread execute one of its atomic actions (one
    statement that reads or writes a global: under the GIL a bytecode
    boundary can separate the test of [is_detection_running] from its
    assignment).  [start_detection] and [stop_detection] are the handlers
    run as a whole.  The contract the specification gives the
    lifecycle controller (section 4.3) is a small abstract machine
    ([svc], [spec_start], [spec_stop]); the refinement theorems show
    that the small steps of one handler, run back to back, answer and
    change the observable state ([abs_svc], [reply_success]) as the
    contract prescribes.  [step_clear] restricts [step] to the
    executions that keep the flag clear, along which a metrics thread
    publishes at most once more.

    Two fields of [world] are instrumentation, not program state:
    [camera_releases] counts the calls of [camera.release()] and
    [failed_spawns] the [detection_thread.start()] calls that raised. *)

From S2P Require Import Prelude Metrics.

(** The object [cv2.VideoCapture(0)] bound to the global [camera]:
    [release()] closes it, the global keeps pointing at it. *)
Record camera := Camera { cam_opened : bool }.

Record world {RS : RandomSource} := World {
  is_detection_running : bool;
  detection_thread : option nat;
  camera_handle : option camera;
  camera_releases : nat;
  drowsiness_data : drowsiness;
  rand : rng;
  clock : Z;
  failed_spawns : nat;
}.
Arguments World {_} _ _ _ _ _ _ _ _.

(** Program counters of the threads. *)
Inductive sim_pc := SimCheck | SimUpdate | SimExit.
Inductive start_pc := StartCheck | StartSet | StartSpawn.
Inductive stop_pc := StopClear | StopRelease.

Inductive thread :=
| TSim (pc : sim_pc)
| TStart (pc : start_pc)
| TStop (pc : stop_pc)
| TGet
| TReply (r : response).

Record config {RS : RandomSource} := Config { cw : world; pool : list thread }.
Arguments Config {_} _ _.
Arguments cw {_} _.
Arguments pool {_} _.

(** The requests the routes receive. *)
Inductive request := ReqStart | ReqStop | ReqGet.

Definition request_thread (r : request) : thread :=
  match r with
  | ReqStart => TStart StartCheck
  | ReqStop => TStop StopClear
  | ReqGet => TGet
  end.

(** The JSON answers of the two routes. *)
Definition resp_already_running : response :=
  jsonify (JObj [("success", JBool false); ("message", JStr "Detection already running")]).
Definition resp_started : response :=
  jsonify (JObj [("success", JBool true); ("message", JStr "Drowsiness detection started")]).
Definition resp_start_error (msg : string) : response :=
  jsonify (JObj [("success", JBool false); ("message", JStr msg)]).
Definition resp_stopped : response :=
  jsonify (JObj [("success", JBool true); ("message", JStr "Drowsiness detection stopped")]).

(** The message of the [RuntimeError] of a thread that cannot start. *)
Definition spawn_error : string := "can't start new thread".

(** A metrics thread that has not left its loop. *)
Definition is_live_sim (t : thread) : bool :=
  match t with
  | TSim SimCheck | TSim SimUpdate => true
  | _ => false
  end.

Definition live_sims (p : list thread) : nat := length (List.filter is_live_sim p).

Section World.
Context {RS : RandomSource}.

Definition w_set_running (b : bool) (w : world) : world :=
  World b (detection_thread w) (camera_handle w) (camera_releases w)
        (drowsiness_data w) (rand w) (clock w) (failed_spawns w).

Definition w_set_thread (t : option nat) (w : world) : world :=
  World (is_detection_running w) t (camera_handle w) (camera_releases w)
        (drowsiness_data w) (rand w) (clock w) (failed_spawns w).

(** [if camera is not None: camera.release()]. *)
Definition camera_release (w : world) : world :=
  match camera_handle w with
  | Some _ =>
      World (is_detection_running w) (detection_thread w) (Some (Camera false))
            (S (camera_releases w)) (drowsiness_data w) (rand w) (clock w) (failed_spawns w)
  | None => w
  end.

(** One iteration of the loop body: draw, then [drowsiness_data.update]. *)
Definition publish (w : world) : world :=
  let '(d, g) := generate_metrics (clock w) (rand w) in
  World (is_detection_running w) (detection_thread w) (camera_handle w)
        (camera_releases w) d g (clock w) (failed_spawns w).

Definition w_tick (w : world) : world :=
  World (is_detection_running w) (detection_thread w) (camera_handle w)
        (camera_releases w) (drowsiness_data w) (rand w) (clock w + 1) (failed_spawns w).

Definition w_spawn_failed (w : world) : world :=
  World (is_detection_running w) (detection_thread w) (camera_handle w)
        (camera_releases w) (drowsiness_data w) (rand w) (clock w) (S (failed_spawns w)).

(** The process at import time: globals as initialised, no thread. *)
Definition world_init (g : rng) : world :=
  World false None None 0 drowsiness_init g 0 0.

Definition config_init (g : rng) : config := Config (world_init g) [].

(** [start_detection()] run by thread [i] as a whole. *)
Definition start_detection (i : nat) (c : config) : config :=
  if is_detection_running (cw c) then
    Config (cw c) (<[i := TReply resp_already_running]> (pool c))
  else
    Config (w_set_thread (Some (length (pool c))) (w_set_running true (cw c)))
           (<[i := TReply resp_started]> (pool c) ++ [TSim SimCheck]).

(** [stop_detection()] run by thread [i] as a whole. *)
Definition stop_detection (i : nat) (c : config) : config :=
  Config (camera_release (w_set_running false (cw c)))
         (<[i := TReply resp_stopped]> (pool c)).

(** One atomic action of one thread, or a request arriving, or time
    passing. *)
Inductive step : config -> config -> Prop :=
| step_arrive w p r :
    step (Config w p) (Config w (p ++ [request_thread r]))
| step_tick w p :
    step (Config w p) (Config (w_tick w) p)
| step_sim_loop w p i :
    p !! i = Some (TSim SimCheck) -> is_detection_running w = true ->
    step (Config w p) (Config w (<[i := TSim SimUpdate]> p))
| step_sim_exit w p i :
    p !! i = Some (TSim SimCheck) -> is_detection_running w = false ->
    step (Config w p) (Config w (<[i := TSim SimExit]> p))
| step_sim_update w p i :
    p !! i = Some (TSim SimUpdate) ->
    step (Config w p) (Config (publish w) (<[i := TSim SimCheck]> p))
| step_start_busy w p i :
    p !! i = Some (TStart StartCheck) -> is_detection_running w = true ->
    step (Config w p) (Config w (<[i := TReply resp_already_running]> p))
| step_start_idle w p i :
    p !! i = Some (TStart StartCheck) -> is_detection_running w = false ->
    step (Config w p) (Config w (<[i := TStart StartSet]> p))
| step_start_set w p i :
    p !! i = Some (TStart StartSet) ->
    step (Config w p) (Config (w_set_running true w) (<[i := TStart StartSpawn]> p))
| step_start_spawn w p i :
    p !! i = Some (TStart StartSpawn) ->
    step (Config w p)
         (Config (w_set_thread (Some (length p)) w) (<[i := TReply resp_started]> p ++ [TSim SimCheck]))
| step_start_spawn_fail w p i :
    p !! i = Some (TStart StartSpawn) ->
    step (Config w p)
         (Config (w_spawn_failed (w_set_thread (Some (length p)) w))
                 (<[i := TReply (resp_start_error spawn_error)]> p))
| step_stop_clear w p i :
    p !! i = Some (TStop StopClear) ->
    step (Config w p) (Config (w_set_running false w) (<[i := TStop StopRelease]> p))
| step_stop_release w p i :
    p !! i = Some (TStop StopRelease) ->
    step (Config w p) (Config (camera_release w) (<[i := TReply resp_stopped]> p))
| step_get w p i :
    p !! i = Some TGet ->
    step (Config w p) (Config w (<[i := TReply (get_drowsiness_data (drowsiness_data w))]> p)).

Definition reachable (g : rng) (c : config) : Prop := star step (config_init g) c.

(** A step after which [is_detection_running] is still [False]: the
    executions that follow a stop with no start setting the flag again. *)
Definition step_clear (c c' : config) : Prop := step c c' /\ is_detection_running (cw c') = false.

(** A metrics thread at the test of the flag or past its loop. *)
Definition sim_quiet (t : option thread) : Prop :=
  t = Some (TSim SimCheck) \/ t = Some (TSim SimExit).

(** The contract of the lifecycle controller (spec, section 4.3), as an
    abstract machine: the run state, the number of metrics tasks
    launched and not yet finished, and the number of camera releases.
    [start] from [Running] fails with no side effect; otherwise it flips
    to [Running] and launches one task.  [stop] always succeeds, flips to
    [Stopped] and releases the camera if one is held; the tasks leave by
    themselves later. *)
Inductive run_state := Stopped | Running.

Record svc := Svc { svc_state : run_state; svc_tasks : nat; svc_releases : nat }.

Definition spec_start (s : svc) : bool * svc :=
  match svc_state s with
  | Running => (false, s)
  | Stopped => (true, Svc Running (S (svc_tasks s)) (svc_releases s))
  end.

Definition spec_stop (held : bool) (s : svc) : bool * svc :=
  (true, Svc Stopped (svc_tasks s) (if held then S (svc_releases s) else svc_releases s)).

(** [camera is not None]. *)
Definition camera_held (w : world) : bool :=
  match camera_handle w with Some _ => true | None => false end.

(** What the contract observes of a configuration. *)
Definition abs_svc (c : config) : svc :=
  Svc (if is_detection_running (cw c) then Running else Stopped)
      (live_sims (pool c)) (camera_releases (cw c)).

(** The ["success"] field of the JSON answer a thread has produced. *)
Definition reply_success (t : option thread) : option bool :=
  match t with
  | Some (TReply r) =>
      match body r with
      | JObj kvs => match json_lookup "success" kvs with Some (JBool b) => Some b | _ => None end
      | _ => None
      end
  | _ => None
  end.

(** A metrics thread that publishes at most once more. *)
Definition sim_settling (t : option thread) : Prop :=
  t = Some (TSim SimUpdate) \/ sim_quiet t.

End World.

(** A thread that keeps the flag meaningful: a live loop, or a start
    handler about to spawn one. *)
Definition is_worker (t : thread) : bool :=
  match t with
  | TSim SimCheck | TSim SimUpdate | TStart StartSpawn => true
  | _ => false
  end.

(** ** Lemmas on the pool *)

Module PoolFacts.

Lemma star_refl_eq {A} (R : A -> A -> Prop) a b : a = b -> star R a b.
Proof. intros ->. constructor. Qed.

Lemma lookup_insert_self (p : list thread) i t x :
  p !! i = Some t -> <[i := x]> p !! i = Some x.
Proof. intros H. apply list_lookup_insert_eq. eapply lookup_lt_Some; eauto. Qed.

Lemma live_sims_app p q : live_sims (p ++ q) = live_sims p + live_sims q.
Proof. unfold live_sims. by rewrite List.filter_app, length_app. Qed.

(** Replacing a thread changes the count of live loops by the
    difference between the two threads. *)
Lemma live_sims_insert p i t x :
  p !! i = Some t ->
  live_sims (<[i := x]> p) + (if is_live_sim t then 1 else 0) =
  live_sims p + (if is_live_sim x then 1 else 0).
Proof.
  unfold live_sims. revert i. induction p as [|y p IH]; intros [|i] Hi; try discriminate.
  - injection Hi as ->. simpl. destruct (is_live_sim t), (is_live_sim x); simpl; lia.
  - simpl in *. specialize (IH i Hi). destruct (is_live_sim y); simpl; lia.
Qed.

Lemma live_sims_reply p i t r :
  p !! i = Some t -> is_live_sim t = false -> live_sims (<[i := TReply r]> p) = live_sims p.
Proof. intros Hi Ht. pose proof (live_sims_insert p i t (TReply r) Hi) as E. rewrite Ht in E. simpl in E. lia. Qed.

End PoolFacts.

Import PoolFacts.

Section Handlers.
Context {RS : RandomSource}.

(** The start handler's steps, run back to back. *)
Lemma start_steps c i :
  pool c !! i = Some (TStart StartCheck) -> star step c (start_detection i c).
Proof.
  destruct c as [w p]. simpl. intros Hi. unfold start_detection. simpl.
  destruct (is_detection_running w) eqn:Hr.
  - apply star_one. by apply step_start_busy.
  - eapply star_step; [by apply step_start_idle |].
    eapply star_step; [by eapply step_start_set, lookup_insert_self |].
    eapply star_step; [by eapply step_start_spawn, lookup_insert_self, lookup_insert_self |].
    apply star_refl_eq. by rewrite !length_insert, !list_insert_insert_eq.
Qed.

(** The stop handler's steps, run back to back. *)
Lemma stop_steps c i :
  pool c !! i = Some (TStop StopClear) -> star step c (stop_detection i c).
Proof.
  destruct c as [w p]. simpl. intros Hi. unfold stop_detection. simpl.
  eapply star_step; [by apply step_stop_clear |].
  eapply star_step; [by eapply step_stop_release, lookup_insert_self |].
  apply star_refl_eq. by rewrite list_insert_insert_eq.
Qed.

End Handlers.

(** ** Invariants of the interleaving semantics *)

Module WorldFacts.

Section WithRandom.
Context {RS : RandomSource}.

Lemma running_publish w : is_detection_running (publish w) = is_detection_running w.
Proof. unfold publish. by destruct (generate_metrics _ _). Qed.

Lemma running_release w : is_detection_running (camera_release w) = is_detection_running w.
Proof. unfold camera_release. by destruct (camera_handle w). Qed.

Lemma spawns_publish w : failed_spawns (publish w) = failed_spawns w.
Proof. unfold publish. by destruct (generate_metrics _ _). Qed.

Lemma spawns_release w : failed_spawns (camera_release w) = failed_spawns w.
Proof. unfold camera_release. by destruct (camera_handle w). Qed.

Lemma data_release w : drowsiness_data (camera_release w) = drowsiness_data w.
Proof. unfold camera_release. by destruct (camera_handle w). Qed.

End WithRandom.

Create Rewrite HintDb world.
#[export] Hint Rewrite @running_publish @running_release @spawns_publish
  @spawns_release @data_release : world.

Definition has_worker (p : list thread) : Prop :=
  exists k t, p !! k = Some t /\ is_worker t = true.

Lemma has_worker_insert_worker p i x :
  i < length p -> is_worker x = true -> has_worker (<[i := x]> p).
Proof. intros Hi Hx. exists i, x. split; [by apply list_lookup_insert_eq | done]. Qed.

(** Replacing a thread that is not a worker keeps the workers. *)
Lemma has_worker_replace p i s x :
  p !! i = Some s -> is_worker s = false -> has_worker p -> has_worker (<[i := x]> p).
Proof.
  intros Hi Hs (k & t & Hk & Ht). exists k, t. split; [| done].
  rewrite list_lookup_insert_ne; [done |]. intros ->. congruence.
Qed.

Lemma has_worker_app p q : has_worker p -> has_worker (p ++ q).
Proof.
  intros (k & t & Hk & Ht). exists k, t. split; [| done].
  rewrite lookup_app_l; [done |]. eapply lookup_lt_Some; eauto.
Qed.

End WorldFacts.

Import WorldFacts.

Section Invariants.
Context {RS : RandomSource}.

(** The flag is set only while a loop runs or is about to be spawned,
    unless a spawn has failed. *)
Definition flag_inv (c : config) : Prop :=
  is_detection_running (cw c) = true -> failed_spawns (cw c) > 0 \/ has_worker (pool c).

Lemma flag_inv_step c c' : flag_inv c -> step c c' -> flag_inv c'.
Proof.
  unfold flag_inv. intros Hinv Hs. destruct Hs; simpl in *;
    autorewrite with world in *; intros Hr; try congruence.
  - destruct (Hinv Hr) as [? | ?]; [left | right; by apply has_worker_app]; done.
  - by apply Hinv.
  - right. apply has_worker_insert_worker; [eapply lookup_lt_Some; eauto | done].
  - destruct (Hinv Hr) as [? | ?]; [by left | right].
    apply has_worker_insert_worker; [eapply lookup_lt_Some; eauto | done].
  - destruct (Hinv Hr) as [? | ?]; [by left | right]. by eapply has_worker_replace.
  - right. apply has_worker_insert_worker; [eapply lookup_lt_Some; eauto | done].
  - right. exists (length p), (TSim SimCheck). split; [| done].
    rewrite lookup_app_r; rewrite length_insert; [| lia]. by rewrite Nat.sub_diag.
  - left. simpl. lia.
  - destruct (Hinv Hr) as [? | ?]; [by left | right]. by eapply has_worker_replace.
  - destruct (Hinv Hr) as [? | ?]; [by left | right]. by eapply has_worker_replace.
Qed.

Lemma thread_insert (Q : option thread -> Prop) (p : list thread) (i j : nat) (x t0 : thread) :
  p !! j = Some t0 -> Q (p !! i) -> (j = i -> Q (Some x)) -> Q (<[j := x]> p !! i).
Proof.
  intros Hj Hq Hx. destruct (decide (j = i)) as [<- |].
  - rewrite list_lookup_insert_eq by (eapply lookup_lt_Some; eauto). auto.
  - by rewrite list_lookup_insert_ne.
Qed.

Lemma thread_app (Q : option thread -> Prop) (p q : list thread) (i : nat) :
  i < length p -> Q (p !! i) -> Q ((p ++ q) !! i).
Proof. intros. by rewrite lookup_app_l. Qed.

(** The cases of a step seen from thread [i], whose slot satisfies a
    disjunction of equalities [Hq]: slots other than [i] are untouched,
    a step of [i] itself is closed by [Hq] and the clear flag [Hf]. *)
Ltac clear_step_cases Hq Hf :=
  let Hl := fresh "Hl" in
  match goal with
  | |- context [(?p ++ _) !! ?i] =>
      assert (Hl : i < length p)
        by (rewrite ?length_insert; destruct Hq as [Hq | Hq]; try destruct Hq as [Hq | Hq];
            eapply lookup_lt_Some; eauto);
      apply thread_app; [exact Hl |]
  | _ => idtac
  end;
  first
    [ exact Hq
    | eapply thread_insert; [eassumption | exact Hq |]; intros <-;
      destruct Hq as [Hq | Hq]; try destruct Hq as [Hq | Hq]; rewrite Hq in *; simplify_eq;
      unfold sim_settling, sim_quiet; first [congruence | by left | by right; left | by right; right | by right] ].

(** While the flag stays clear, a metrics thread at the test or past
    its loop stays there: it never enters [SimUpdate] again. *)
Lemma step_clear_quiet i c c' :
  step_clear c c' -> sim_quiet (pool c !! i) -> sim_quiet (pool c' !! i).
Proof. intros [Hs Hf] Hq. destruct Hs; simpl in *; clear_step_cases Hq Hf. Qed.

(** A metrics thread about to publish either still is, or has moved to
    the test of the flag or past its loop. *)
Lemma step_clear_settling i c c' :
  step_clear c c' -> sim_settling (pool c !! i) -> sim_settling (pool c' !! i).
Proof. intros [Hs Hf] Hq. destruct Hs; simpl in *; clear_step_cases Hq Hf. Qed.

Lemma metrics_inv_step `{!RandomLaws} c c' :
  metrics_ok (drowsiness_data (cw c)) -> step c c' -> metrics_ok (drowsiness_data (cw c')).
Proof.
  intros Hok Hs. destruct Hs; simpl in *; autorewrite with world; try done.
  right. unfold publish. pose proof (generate_metrics_range (clock w) (rand w)) as Hr.
  destruct (generate_metrics (clock w) (rand w)). exact Hr.
Qed.

End Invariants.

(** ** Properties of the lifecycle *)

(** One step of a concrete trace: apply the rule, discharge its side
    conditions by computation, and compute the next configuration. *)
Ltac run_step tac := eapply star_step; [tac; try reflexivity | simpl].

Section Claims.
Context {RS : RandomSource}.

(** C24: the start handler implements the contract's [start]: from any
    configuration where thread [i] is about to test the flag, the
    handler's own steps, run back to back, reach a configuration whose
    answer carries the contract's success flag and whose observable
    state (run state, live metrics tasks, camera releases) is the one
    [spec_start] prescribes: "already running" changes nothing, a start
    from [Stopped] flips to [Running] and launches exactly one task. *)
Theorem start_detection_steps c i :
  pool c !! i = Some (TStart StartCheck) ->
  star step c (start_detection i c) /\
  reply_success (pool (start_detection i c) !! i) = Some (fst (spec_start (abs_svc c))) /\
  abs_svc (start_detection i c) = snd (spec_start (abs_svc c)).
Proof.
  intros Hi. split; [by apply start_steps |].
  destruct c as [w p]. simpl in *. unfold start_detection, abs_svc, spec_start. simpl.
  assert (Hl : i < length p) by (eapply lookup_lt_Some; eauto).
  destruct (is_detection_running w) eqn:Hr; simpl; rewrite ?Hr.
  - rewrite list_lookup_insert_eq by done. by erewrite live_sims_reply by eauto.
  - rewrite lookup_app_l, list_lookup_insert_eq by (rewrite ?length_insert; done).
    rewrite live_sims_app. erewrite live_sims_reply by eauto. simpl. by rewrite Nat.add_1_r.
Qed.

(** C25: the stop handler implements the contract's [stop]: its steps,
    run back to back, answer success, leave the run state [Stopped],
    leave the launched tasks to exit by themselves, and release the
    camera exactly when [camera is not None]. *)
Theorem stop_detection_steps c i :
  pool c !! i = Some (TStop StopClear) ->
  star step c (stop_detection i c) /\
  reply_success (pool (stop_detection i c) !! i) = Some (fst (spec_stop (camera_held (cw c)) (abs_svc c))) /\
  abs_svc (stop_detection i c) = snd (spec_stop (camera_held (cw c)) (abs_svc c)).
Proof.
  intros Hi. split; [by apply stop_steps |].
  destruct c as [w p]. simpl in *. unfold stop_detection, abs_svc, spec_stop, camera_held. simpl.
  assert (Hl : i < length p) by (eapply lookup_lt_Some; eauto).
  rewrite list_lookup_insert_eq by done. erewrite live_sims_reply by eauto.
  unfold camera_release, w_set_running. destruct (camera_handle w); done.
Qed.

(** C5: in every reachable configuration, when [is_detection_running] is
    set, a metrics loop is live or a start handler is about to spawn
    one, unless a [detection_thread.start()] has raised. *)
Theorem reachable_flag_inv g c : reachable g c -> flag_inv c.
Proof.
  intros Hr. eapply star_inv; [apply flag_inv_step | | exact Hr].
  unfold flag_inv. simpl. discriminate.
Qed.

(** C17: in every reachable configuration the shared record is the
    initial one or a record of one iteration, so every reader of
    [drowsiness_data] sees a complete record in range. *)
Theorem reachable_metrics_ok `{!RandomLaws} g c :
  reachable g c -> metrics_ok (drowsiness_data (cw c)).
Proof.
  intros Hr.
  apply (star_inv step (fun c => metrics_ok (drowsiness_data (cw c))) (config_init g) c
           metrics_inv_step); [by left | exact Hr].
Qed.

(** C4: sequential starts are idempotent: from a stopped configuration,
    two start requests handled one after the other spawn exactly one
    loop; the second answers "already running". *)
Theorem start_twice_one_loop c i j :
  is_detection_running (cw c) = false -> i <> j ->
  pool c !! i = Some (TStart StartCheck) -> pool c !! j = Some (TStart StartCheck) ->
  let c2 := start_detection j (start_detection i c) in
  live_sims (pool c2) = S (live_sims (pool c)) /\
  pool c2 !! i = Some (TReply resp_started) /\
  pool c2 !! j = Some (TReply resp_already_running) /\
  is_detection_running (cw c2) = true.
Proof.
  intros Hr Hij Hi Hj. destruct c as [w p]. simpl in *.
  unfold start_detection. simpl. rewrite Hr. simpl.
  assert (Hjl : j < length p) by (eapply lookup_lt_Some; eauto).
  assert (Hil : i < length p) by (eapply lookup_lt_Some; eauto).
  rewrite insert_app_l by (rewrite length_insert; lia).
  split; [| split; [| split]]; [| | | done].
  - rewrite live_sims_app. change (live_sims [TSim SimCheck]) with 1.
    pose proof (live_sims_insert p i _ (TReply resp_started) Hi) as E1.
    pose proof (live_sims_insert (<[i := TReply resp_started]> p) j (TStart StartCheck)
                  (TReply resp_already_running)) as E2.
    rewrite list_lookup_insert_ne in E2 by done. specialize (E2 Hj).
    cbn [is_live_sim] in E1, E2. lia.
  - rewrite lookup_app_l by (rewrite !length_insert; lia).
    rewrite list_lookup_insert_ne by done. by apply list_lookup_insert_eq.
  - rewrite lookup_app_l by (rewrite !length_insert; lia).
    apply list_lookup_insert_eq. by rewrite length_insert.
Qed.

(** C14: stop does not clear the [camera] global: stopping twice answers
    success twice and calls [camera.release()] twice when a camera was
    ever opened (none when it never was). *)
Theorem stop_twice_releases c i j :
  i <> j -> pool c !! i = Some (TStop StopClear) -> pool c !! j = Some (TStop StopClear) ->
  let c2 := stop_detection j (stop_detection i c) in
  is_detection_running (cw c2) = false /\
  camera_releases (cw c2) =
    camera_releases (cw c) + (match camera_handle (cw c) with Some _ => 2 | None => 0 end) /\
  pool c2 !! i = Some (TReply resp_stopped) /\ pool c2 !! j = Some (TReply resp_stopped).
Proof.
  intros Hij Hi Hj. destruct c as [w p]. simpl in *.
  unfold stop_detection, camera_release, w_set_running. simpl.
  assert (Hil : i < length p) by (eapply lookup_lt_Some; eauto).
  assert (Hjl : j < length p) by (eapply lookup_lt_Some; eauto).
  split; [| split; [| split]].
  - destruct (camera_handle w); reflexivity.
  - destruct (camera_handle w); simpl; lia.
  - rewrite list_lookup_insert_ne by done. by apply list_lookup_insert_eq.
  - apply list_lookup_insert_eq. by rewrite length_insert.
Qed.

(** C16: a stopped loop leaves within one interval: once the flag is
    clear, every metrics thread [i] reaches its exit by its own steps
    while the flag stays clear; and along EVERY execution in which the
    flag stays clear, thread [i] is at most about to publish once more,
    and once it is at the test of the flag or past its loop it never
    publishes again (it never re-enters [SimUpdate]).  So a stopped
    loop publishes at most once more. *)
Theorem sim_exits_after_stop c i pc :
  is_detection_running (cw c) = false -> pool c !! i = Some (TSim pc) ->
  (exists c', star step_clear c c' /\ pool c' !! i = Some (TSim SimExit)) /\
  (forall c', star step_clear c c' -> sim_settling (pool c' !! i)) /\
  (forall c' c'', star step_clear c c' -> sim_quiet (pool c' !! i) ->
     star step_clear c' c'' -> sim_quiet (pool c'' !! i)).
Proof.
  destruct c as [w p]. simpl. intros Hr Hi. split; [| split].
  - destruct pc.
    + eexists. split; [apply star_one; split; [by apply step_sim_exit | done] |].
      simpl. by eapply lookup_insert_self.
    + eexists. split.
      * eapply star_step; [split; [by apply step_sim_update | simpl; by rewrite running_publish] |].
        apply star_one. split; [apply step_sim_exit; [by eapply lookup_insert_self |] |];
          simpl; by rewrite running_publish.
      * simpl. rewrite list_insert_insert_eq. by eapply lookup_insert_self.
    + exists (Config w p). split; [constructor | done].
  - intros c' Hs. apply (star_inv step_clear (fun x => sim_settling (pool x !! i))) with (Config w p);
      [intros ?? Hx Hxy; exact (step_clear_settling _ _ _ Hxy Hx) | | exact Hs].
    simpl. rewrite Hi. unfold sim_settling, sim_quiet. destruct pc; auto.
  - intros c' c'' _ Hq Hs. apply (star_inv step_clear (fun x => sim_quiet (pool x !! i))) with c';
      [intros ?? Hx Hxy; exact (step_clear_quiet _ _ _ Hxy Hx) | exact Hq | exact Hs].
Qed.

(** C2: the check-then-act in [start_detection] races: two start requests
    served concurrently can both see the flag clear, both answer
    success, and leave two metrics loops running. *)
Theorem concurrent_starts_two_loops g :
  exists c, reachable g c /\ live_sims (pool c) = 2 /\
    pool c !! 0 = Some (TReply resp_started) /\ pool c !! 1 = Some (TReply resp_started).
Proof.
  eexists. split.
  - unfold reachable, config_init.
    run_step ltac:(apply (step_arrive _ _ ReqStart)).
    run_step ltac:(apply (step_arrive _ _ ReqStart)).
    run_step ltac:(apply (step_start_idle _ _ 0)).
    run_step ltac:(apply (step_start_idle _ _ 1)).
    run_step ltac:(apply (step_start_set _ _ 0)).
    run_step ltac:(apply (step_start_set _ _ 1)).
    run_step ltac:(apply (step_start_spawn _ _ 0)).
    run_step ltac:(apply (step_start_spawn _ _ 1)).
    apply star_refl.
  - repeat split.
Qed.

(** C3: stop does not wait for the loop: a start served after a stop,
    before the old loop has tested the flag again, spawns a second loop
    while the first keeps running, even with requests served one at a
    time. *)
Theorem stop_start_two_loops g :
  exists c, reachable g c /\ live_sims (pool c) = 2 /\
    is_detection_running (cw c) = true /\
    pool c !! 2 = Some (TReply resp_stopped) /\ pool c !! 3 = Some (TReply resp_started).
Proof.
  eexists. split.
  - unfold reachable, config_init.
    run_step ltac:(apply (step_arrive _ _ ReqStart)).
    run_step ltac:(apply (step_start_idle _ _ 0)).
    run_step ltac:(apply (step_start_set _ _ 0)).
    run_step ltac:(apply (step_start_spawn _ _ 0)).
    run_step ltac:(apply (step_sim_loop _ _ 1)).
    run_step ltac:(apply (step_arrive _ _ ReqStop)).
    run_step ltac:(apply (step_stop_clear _ _ 2)).
    run_step ltac:(apply (step_stop_release _ _ 2)).
    run_step ltac:(apply (step_arrive _ _ ReqStart)).
    run_step ltac:(apply (step_start_idle _ _ 3)).
    run_step ltac:(apply (step_start_set _ _ 3)).
    run_step ltac:(apply (step_start_spawn _ _ 3)).
    apply star_refl.
  - repeat split.
Qed.

(** C6: a failed [detection_thread.start()] leaves the flag set with no
    loop: every later start request answers "already running" and no
    metrics are ever published until a stop. *)
Theorem spawn_failure_blocks_start g :
  exists c, reachable g c /\ is_detection_running (cw c) = true /\
    ~ has_worker (pool c) /\ pool c !! 1 = Some (TReply resp_already_running).
Proof.
  eexists. split.
  - unfold reachable, config_init.
    run_step ltac:(apply (step_arrive _ _ ReqStart)).
    run_step ltac:(apply (step_start_idle _ _ 0)).
    run_step ltac:(apply (step_start_set _ _ 0)).
    run_step ltac:(apply (step_start_spawn_fail _ _ 0)).
    run_step ltac:(apply (step_arrive _ _ ReqStart)).
    run_step ltac:(apply (step_start_busy _ _ 1)).
    apply star_refl.
  - split; [done | split; [| done]].
    intros (k & t & Hk & Ht). destruct k as [|[|k]]; simpl in Hk; try discriminate;
      injection Hk as <-; discriminate.
Qed.

End Claims.

(** ** Witnesses *)

Section Witnesses.
#[local] Existing Instance toy_random.
#[local] Existing Instance toy_random_laws.

Definition w0 : world := world_init 0%nat.
Definition w_cam : world := World false None (Some (Camera true)) 0 drowsiness_init 0%nat 0 0.

Lemma start_detection_steps_witness :
  let c := Config w0 [TStart StartCheck] in
  pool c !! 0 = Some (TStart StartCheck) /\
  star step c (start_detection 0 c) /\
  reply_success (pool (start_detection 0 c) !! 0) = Some (fst (spec_start (abs_svc c))) /\
  abs_svc (start_detection 0 c) = snd (spec_start (abs_svc c)).
Proof. split; [reflexivity | apply start_detection_steps; reflexivity]. Defined.

Lemma stop_detection_steps_witness :
  let c := Config w_cam [TStop StopClear] in
  pool c !! 0 = Some (TStop StopClear) /\
  star step c (stop_detection 0 c) /\
  reply_success (pool (stop_detection 0 c) !! 0) = Some (fst (spec_stop (camera_held (cw c)) (abs_svc c))) /\
  abs_svc (stop_detection 0 c) = snd (spec_stop (camera_held (cw c)) (abs_svc c)).
Proof. split; [reflexivity | apply stop_detection_steps; reflexivity]. Defined.

Lemma reachable_flag_inv_witness :
  reachable 0%nat (config_init 0%nat) /\ flag_inv (config_init 0%nat).
Proof.
  assert (H : reachable 0%nat (config_init 0%nat)) by constructor.
  split; [exact H | exact (reachable_flag_inv _ _ H)].
Defined.

Lemma reachable_metrics_ok_witness :
  reachable 0%nat (config_init 0%nat) /\ metrics_ok (drowsiness_data (cw (config_init 0%nat))).
Proof.
  assert (H : reachable 0%nat (config_init 0%nat)) by constructor.
  split; [exact H | exact (reachable_metrics_ok _ _ H)].
Defined.

Lemma start_twice_one_loop_witness :
  let c2 := start_detection 1 (start_detection 0 (Config w0 [TStart StartCheck; TStart StartCheck])) in
  live_sims (pool c2) = 1 /\ pool c2 !! 1 = Some (TReply resp_already_running).
Proof.
  destruct (start_twice_one_loop (Config w0 [TStart StartCheck; TStart StartCheck]) 0 1
              eq_refl ltac:(lia) eq_refl eq_refl) as (H1 & _ & H3 & _).
  split; [exact H1 | exact H3].
Defined.

Lemma stop_twice_releases_witness :
  let c2 := stop_detection 1 (stop_detection 0 (Config w_cam [TStop StopClear; TStop StopClear])) in
  camera_releases (cw c2) = 2.
Proof.
  destruct (stop_twice_releases (Config w_cam [TStop StopClear; TStop StopClear]) 0 1
              ltac:(lia) eq_refl eq_refl) as (_ & H2 & _).
  exact H2.
Defined.

Lemma sim_exits_after_stop_witness :
  exists c', star step_clear (Config w0 [TSim SimUpdate]) c' /\ pool c' !! 0 = Some (TSim SimExit).
Proof. apply (sim_exits_after_stop _ 0 SimUpdate); reflexivity. Defined.

End Witnesses.
