(* ===== verification/Stream.v ===== *)
(** * The camera, the frame cache and the MJPEG stream

    Models [generate_frames] (src/backend/app.py, lines 114-154) and the
    route [video_feed] (lines 228-232).  The globals [camera] and
    [last_frame] are fields of [sstate]; numpy frames are objects in a
    store [heap] addressed by index, so that [last_frame = frame]
    (aliasing), [last_frame.copy()] (a new object) and [cv2.putText]
    (an in-place write) are modelled as the code has them.  OpenCV is
    the interface [Vision]: whether the [n]-th [cv2.VideoCapture(0)]
    opens, what the [n]-th [camera.read()] of an open device returns,
    [cv2.putText] with the fixed banner, and [cv2.imencode('.jpg', _)].

    A Python generator runs its body up to the next [yield] on each
    [next()]: [gen_next] is that resumption, with [fuel] bounding the
    iterations that do not yield (a failed read or a failed encoding
    [continue]s the loop).  The [with frame_lock:] block is one step of
    [gen_iteration]: the lock makes it atomic with respect to other
    generators. *)

From S2P Require Import Prelude Base64 Metrics Lifecycle.

Class Vision := {
  frame : Type;
  device_opens : nat -> bool;
  capture : nat -> option frame;
  put_text : frame -> frame;
  imencode : frame -> option (list Z);
}.

(** The globals the generator shares, the frame store, and the counts
    of device opens and reads (which index the [Vision] oracles). *)
Record sstate {V : Vision} := SState {
  s_camera : option camera;
  last_frame : option nat;
  heap : list frame;
  opens : nat;
  reads : nat;
}.
Arguments SState {_} _ _ _ _ _.
Arguments s_camera {_} _.
Arguments last_frame {_} _.
Arguments heap {_} _.
Arguments opens {_} _.
Arguments reads {_} _.

(** Where a suspended generator resumes. *)
Inductive gen_pc := GStart | GLoop.

Inductive gen_out {V : Vision} :=
| Yield (chunk : list Z) (st : sstate)
| Finished (st : sstate)
| Stalled (st : sstate).
Arguments gen_out : clear implicits.

(** [b'--frame\r\nContent-Type: image/jpeg\r\n\r\n' + jpeg + b'\r\n']. *)
Definition crlf : list Z := [13; 10]%Z.

Definition mjpeg_part (jpeg : list Z) : list Z :=
  B64.ascii_codes "--frame" ++ crlf ++ B64.ascii_codes "Content-Type: image/jpeg" ++
  crlf ++ crlf ++ jpeg ++ crlf.

Section Generator.
Context {V : Vision}.

(** [camera.read()]: an open device returns its next capture; a device
    that is closed or never opened returns [(False, None)]. *)
Definition camera_read (st : sstate) : option frame * sstate :=
  match s_camera st with
  | Some (Camera true) =>
      (capture (reads st), SState (s_camera st) (last_frame st) (heap st) (opens st) (S (reads st)))
  | _ => (None, st)
  end.

(** The critical section under [frame_lock]: the address of the frame
    this iteration draws on, or [None] when the read failed. *)
Definition frame_cache (st : sstate) : option nat * sstate :=
  match last_frame st with
  | None =>
      let '(r, st1) := camera_read st in
      match r with
      | None => (None, st1)
      | Some f =>
          let a := length (heap st1) in
          (Some a, SState (s_camera st1) (Some a) (heap st1 ++ [f]) (opens st1) (reads st1))
      end
  | Some l =>
      match heap st !! l with
      | Some f =>
          let a := length (heap st) in
          (Some a, SState (s_camera st) (last_frame st) (heap st ++ [f]) (opens st) (reads st))
      | None => (None, st)
      end
  end.

(** [cv2.putText(frame, ...)]: writes into the object. *)
Definition annotate (a : nat) (st : sstate) : sstate :=
  SState (s_camera st) (last_frame st) (alter put_text a (heap st)) (opens st) (reads st).

(** The part of an iteration after the lock is released: [cv2.putText]
    on the frame at [a], [cv2.imencode], and [inl] the chunk to yield
    or [inr] the [continue] of a failed encoding. *)
Definition emit (a : nat) (st : sstate) : (list Z + unit) * sstate :=
  let st2 := annotate a st in
  match heap st2 !! a with
  | Some f =>
      match imencode f with
      | Some jpeg => (inl (mjpeg_part jpeg), st2)
      | None => (inr tt, st2)
      end
  | None => (inr tt, st2)
  end.

(** One iteration of [while True:]: the critical section, then [emit];
    a failed read [continue]s. *)
Definition gen_iteration (st : sstate) : (list Z + unit) * sstate :=
  let '(fa, st1) := frame_cache st in
  match fa with
  | None => (inr tt, st1)
  | Some a => emit a st1
  end.

(** The [while True:] loop up to its next [yield]. *)
Fixpoint gen_loop (fuel : nat) (st : sstate) : gen_out V :=
  match fuel with
  | O => Stalled st
  | S fuel' =>
      let '(r, st1) := gen_iteration st in
      match r with
      | inl chunk => Yield chunk st1
      | inr _ => gen_loop fuel' st1
      end
  end.

(** [next()] on the generator: from its start, the lazy opening of the
    camera ([return] when it does not open); from a [yield], the loop. *)
Definition gen_next (fuel : nat) (pc : gen_pc) (st : sstate) : gen_out V :=
  match pc with
  | GLoop => gen_loop fuel st
  | GStart =>
      match s_camera st with
      | Some _ => gen_loop fuel st
      | None =>
          let cam := Camera (device_opens (opens st)) in
          let st1 := SState (Some cam) (last_frame st) (heap st) (S (opens st)) (reads st) in
          if cam_opened cam then gen_loop fuel st1 else Finished st1
      end
  end.

End Generator.

(** The consumer of the response: [k] successive [next()] calls, each
    allowed [fuel] iterations, collecting the chunks. *)
Fixpoint gen_stream {V : Vision} (k fuel : nat) (pc : gen_pc) (st : sstate)
    : list (list Z) * sstate :=
  match k with
  | O => ([], st)
  | S k' =>
      match gen_next fuel pc st with
      | Yield c st' => let '(cs, st'') := gen_stream k' fuel GLoop st' in (c :: cs, st'')
      | Finished st' | Stalled st' => ([], st')
      end
  end.

(** ** Lemmas on the frame store *)

Module FrameFacts.

Section WithVision.
Context {V : Vision}.

Lemma lookup_snoc_new (h : list frame) f : (h ++ [f]) !! length h = Some f.
Proof. by rewrite lookup_app_r, Nat.sub_diag by lia. Qed.

Lemma lookup_snoc_old (h : list frame) f l g : h !! l = Some g -> (h ++ [f]) !! l = Some g.
Proof. intros Hl. rewrite lookup_app_l; [done |]. eapply lookup_lt_Some; eauto. Qed.

(** An iteration drawing on the cached frame copies it, annotates the
    copy, and leaves the cache, the device and the read count as they
    were. *)
Lemma cached_iteration st l g jpeg :
  last_frame st = Some l -> heap st !! l = Some g -> imencode (put_text g) = Some jpeg ->
  exists st', gen_iteration st = (inl (mjpeg_part jpeg), st') /\
    last_frame st' = Some l /\ heap st' !! l = Some g /\
    reads st' = reads st /\ s_camera st' = s_camera st.
Proof.
  intros Hl Hg Hj. unfold gen_iteration, frame_cache. rewrite Hl, Hg.
  assert (Hne : l <> length (heap st)) by (apply lookup_lt_Some in Hg; lia).
  unfold emit, annotate. simpl. rewrite list_lookup_alter_eq, lookup_snoc_new. simpl. rewrite Hj.
  eexists. split; [reflexivity |]. simpl. split; [done | split; [| done]].
  rewrite list_lookup_alter_ne by done. by apply lookup_snoc_old.
Qed.

(** The first iteration on an open camera with no cached frame stores
    the capture as the cache and writes the banner into that very
    object. *)
Lemma first_iteration st f jpeg :
  s_camera st = Some (Camera true) -> last_frame st = None ->
  capture (reads st) = Some f -> imencode (put_text f) = Some jpeg ->
  gen_iteration st =
  (inl (mjpeg_part jpeg),
   SState (s_camera st) (Some (length (heap st))) (heap st ++ [put_text f])
          (opens st) (S (reads st))).
Proof.
  intros Hc Hl Hf Hj. unfold gen_iteration, frame_cache, camera_read.
  rewrite Hl, Hc, Hf. simpl. unfold emit, annotate. simpl.
  rewrite list_lookup_alter_eq, lookup_snoc_new. simpl. rewrite Hj.
  do 3 f_equal. apply list_eq. intros i.
  destruct (decide (i = length (heap st))) as [-> |].
  - by rewrite list_lookup_alter_eq, !lookup_snoc_new.
  - rewrite list_lookup_alter_ne by done. rewrite !lookup_app.
    destruct (heap st !! i) eqn:Ei; [done |]. apply lookup_ge_None in Ei. simpl.
    destruct (i - length (heap st)) as [|m] eqn:E; [lia | done].
Qed.

(** A failed read leaves everything but the read count as it was. *)
Lemma failed_read_iteration st :
  last_frame st = None -> (match s_camera st with Some (Camera true) => capture (reads st) | _ => None end) = None ->
  exists st', gen_iteration st = (inr tt, st') /\ last_frame st' = None /\
    s_camera st' = s_camera st /\ heap st' = heap st /\
    reads st' = (match s_camera st with Some (Camera true) => S (reads st) | _ => reads st end).
Proof.
  intros Hl Hr. unfold gen_iteration, frame_cache, camera_read. rewrite Hl.
  destruct (s_camera st) as [[[|]]|] eqn:Hc; simpl; try rewrite Hr;
    eexists; (split; [reflexivity |]); simpl; by rewrite ?Hc.
Qed.

End WithVision.
End FrameFacts.

Import FrameFacts.

Section StreamFacts.
Context {V : Vision}.

(** Iterations on a cached frame yield its annotated copy every time. *)
Lemma cached_stream k fuel st l g jpeg :
  last_frame st = Some l -> heap st !! l = Some g -> imencode (put_text g) = Some jpeg ->
  fst (gen_stream k (S fuel) GLoop st) = replicate k (mjpeg_part jpeg) /\
  reads (snd (gen_stream k (S fuel) GLoop st)) = reads st /\
  heap (snd (gen_stream k (S fuel) GLoop st)) !! l = Some g.
Proof.
  revert st. induction k as [|k IH]; intros st Hl Hg Hj; [done |].
  destruct (cached_iteration st l g jpeg Hl Hg Hj) as (st' & Hit & Hl' & Hg' & Hr' & _).
  cbn [gen_stream gen_next gen_loop]. rewrite Hit.
  destruct (IH st' Hl' Hg' Hj) as (IH1 & IH2 & IH3).
  destruct (gen_stream k (S fuel) GLoop st') as [cs st'']. simpl in *.
  split; [by rewrite IH1 | split; [by rewrite IH2 | done]].
Qed.

(** With a closed or unopened device and nothing cached, the loop
    never yields and never changes the state. *)
Lemma closed_camera_loop fuel st :
  s_camera st <> Some (Camera true) -> last_frame st = None -> gen_loop fuel st = Stalled st.
Proof.
  intros Hc Hl. induction fuel as [|fuel IH]; [done |].
  cbn [gen_loop]. unfold gen_iteration, frame_cache, camera_read. rewrite Hl.
  destruct (s_camera st) as [[[|]]|] eqn:E; [congruence | |]; simpl; exact IH.
Qed.

End StreamFacts.

(** ** Properties of the stream *)

Section StreamClaims.
Context {V : Vision}.

(** C9: the frame cache is never refreshed and the cached frame is the
    annotated object: from an open camera with no cached frame, the
    first chunk is the banner over the capture, the capture with its
    banner becomes [last_frame], and every later chunk is a copy of it
    annotated again; the camera is read exactly once. *)
Theorem stream_frozen_after_first_frame st f jpeg1 jpeg2 k fuel :
  s_camera st = Some (Camera true) -> last_frame st = None ->
  capture (reads st) = Some f ->
  imencode (put_text f) = Some jpeg1 -> imencode (put_text (put_text f)) = Some jpeg2 ->
  fst (gen_stream (S k) (S fuel) GLoop st) = mjpeg_part jpeg1 :: replicate k (mjpeg_part jpeg2) /\
  reads (snd (gen_stream (S k) (S fuel) GLoop st)) = S (reads st) /\
  heap (snd (gen_stream (S k) (S fuel) GLoop st)) !! length (heap st) = Some (put_text f).
Proof.
  intros Hc Hl Hf Hj1 Hj2.
  cbn [gen_stream gen_next gen_loop]. rewrite (first_iteration st f jpeg1) by done.
  set (st1 := SState _ _ _ _ _).
  destruct (cached_stream k fuel st1 (length (heap st)) (put_text f) jpeg2)
    as (H1 & H2 & H3); [done | apply lookup_snoc_new | done |].
  destruct (gen_stream k (S fuel) GLoop st1). simpl in *. by rewrite H1, H2, H3.
Qed.

(** C19: a failed capture does not end the stream: after [k] failed reads
    the next successful capture is yielded, given fuel for [k + 1]
    iterations. *)
Theorem stream_retries_failed_reads st k f jpeg fuel :
  s_camera st = Some (Camera true) -> last_frame st = None ->
  (forall j, j < k -> capture (reads st + j) = None) ->
  capture (reads st + k) = Some f -> imencode (put_text f) = Some jpeg -> k < fuel ->
  exists st', gen_next fuel GLoop st = Yield (mjpeg_part jpeg) st'.
Proof.
  simpl. revert st fuel. induction k as [|k IH]; intros st fuel Hc Hl Hfail Hf Hj Hk;
    (destruct fuel as [|fuel]; [lia |]); cbn [gen_loop].
  - rewrite Nat.add_0_r in Hf. rewrite (first_iteration st f jpeg) by done. eauto.
  - destruct (failed_read_iteration st) as (st' & Hit & Hl' & Hc' & _ & Hr');
      [done | rewrite Hc; rewrite <- (Nat.add_0_r (reads st)); apply Hfail; lia |].
    rewrite Hit. rewrite Hc in Hr'.
    apply IH; [congruence | done | | | done | lia].
    + intros j Hj'. rewrite Hr'. replace (S (reads st) + j) with (reads st + S j) by lia.
      apply Hfail. lia.
    + rewrite Hr'. by replace (S (reads st) + k) with (reads st + S k) by lia.
Qed.

(** C15: [stop_detection] releases the camera but leaves the global set,
    so a stream started after a stop, with no frame cached, never
    reopens the device and never yields, whatever the fuel. *)
Theorem stream_stalls_after_stop {RS : RandomSource} (w : world) st fuel pc :
  camera_handle w <> None -> s_camera st = camera_handle (camera_release w) ->
  last_frame st = None -> gen_next fuel pc st = Stalled st.
Proof.
  intros Hw Hc Hl. unfold camera_release in Hc.
  destruct (camera_handle w); [| congruence].
  destruct pc; simpl; [rewrite Hc |]; apply closed_camera_loop; by rewrite ?Hc.
Qed.

(** C26: a device that fails to open is still stored in [camera]: the
    generator returns, and every later generator with no cached frame
    never reopens it and never yields. *)
Theorem stream_failed_open_sticks st fuel fuel' pc :
  s_camera st = None -> device_opens (opens st) = false ->
  exists st', gen_next fuel GStart st = Finished st' /\
    s_camera st' = Some (Camera false) /\
    (last_frame st = None -> gen_next fuel' pc st' = Stalled st').
Proof.
  intros Hc Ho. simpl. rewrite Hc, Ho. simpl. eexists. split; [reflexivity |].
  split; [reflexivity |]. intros Hl.
  destruct pc; simpl; apply closed_camera_loop; simpl; congruence.
Qed.

End StreamClaims.

(** ** Test double and witnesses *)

(** A stand-in for OpenCV: frames are brightness values, the first
    device open fails, the first read fails, [putText] brightens. *)
Definition toy_vision : Vision := {|
  frame := nat;
  device_opens n := negb (Nat.eqb n 0);
  capture n := if Nat.eqb n 0 then None else Some (100 + n);
  put_text f := S f;
  imencode f := Some [Z.of_nat f];
|}.

Section Witnesses.
#[local] Existing Instance toy_vision.

Definition st_open : sstate := SState (Some (Camera true)) None [] 1 1.

Lemma stream_frozen_after_first_frame_witness :
  fst (gen_stream 3 1 GLoop st_open) =
    mjpeg_part [102%Z] :: replicate 2 (mjpeg_part [103%Z]).
Proof.
  exact (proj1 (stream_frozen_after_first_frame st_open 101 [102%Z] [103%Z] 2 0
                  eq_refl eq_refl eq_refl eq_refl eq_refl)).
Defined.

Lemma stream_retries_failed_reads_witness :
  exists st', gen_next 2 GLoop (SState (Some (Camera true)) None [] 1 0) = Yield (mjpeg_part [102%Z]) st'.
Proof.
  apply (@stream_retries_failed_reads toy_vision _ 1 101); try reflexivity; [| lia].
  intros j Hj. assert (j = 0) as -> by lia. reflexivity.
Defined.

Lemma stream_stalls_after_stop_witness :
  gen_next 5 GStart (SState (Some (Camera false)) None [] 1 3) = Stalled (SState (Some (Camera false)) None [] 1 3).
Proof.
  apply (@stream_stalls_after_stop _ toy_random
           (@World toy_random true None (Some (Camera true)) 0 drowsiness_init 0%nat 0 0));
    [discriminate | reflexivity | reflexivity].
Defined.

Lemma stream_failed_open_sticks_witness :
  exists st', gen_next 5 GStart (SState None None [] 0 0) = Finished st' /\
    s_camera st' = Some (Camera false) /\
    (last_frame (SState None None [] 0 0) = None -> gen_next 7 GLoop st' = Stalled st').
Proof. apply stream_failed_open_sticks; reflexivity. Defined.

End Witnesses.
