(* ===== verification/Inference.v ===== *)
(** * Concurrent requests to the phone-detection endpoint

    [detect_phone_endpoint] (src/backend/app.py, lines 234-253) runs on
    a request thread of its own, and the only global it touches is
    [phone_detection_model], through [detect_phone] (lines 82-112) and
    [load_phone_detection_model] (lines 41-51).  The part of the view
    before [detect_phone] (reading the body, [process_image_for_phone_detection])
    reads no global, so it is one action, [endpoint_front]; what
    follows depends on the model handle and is split where another
    thread can interleave: the test [if phone_detection_model is None:],
    the call [hub.load] with the assignment of its result (the download
    releases the GIL), and the call of the loaded model.

    [dstep] is the interleaving semantics of any number of such threads
    over [gw_state]; [dreachable] starts from the state the [__main__]
    block leaves ([gateway_startup]).  The theorems show that a loaded
    model is never unloaded, and that two requests served while no
    model is loaded can both download it. *)

From S2P Require Import Prelude Base64 Detection.

Section Threads.
Context {IL : ImageLib} {SC : Scorer}.

(** The answer of the view for the result of [detect_phone]. *)
Definition endpoint_answer (result : detect_result) : response :=
  match result with
  | DetErr _ => jsonify_code (detect_phone_json result) 500
  | DetOk _ _ => jsonify (detect_phone_json result)
  end.

(** The view up to the call of [detect_phone]: [inl] the answer when
    the request is rejected, [inr] the image tensor. *)
Definition endpoint_front (req : pyres json) : response + tensor :=
  let fail e := inl (jsonify_code (jerror (exc_msg e)) 500) in
  match req with
  | Raise e => fail e
  | Ok data =>
      if negb (json_truthy data) then inl (jsonify_code (jerror "No image data provided") 400)
      else
        match json_contains data "imageData" with
        | Raise e => fail e
        | Ok false => inl (jsonify_code (jerror "No image data provided") 400)
        | Ok true =>
            match json_getitem data "imageData" with
            | Raise e => fail e
            | Ok image_data =>
                match process_image_for_phone_detection image_data with
                | None => inl (jsonify_code (jerror "Failed to process image") 400)
                | Some image_tensor => inr image_tensor
                end
            end
        end
  end.

(** [detections = phone_detection_model(image_tensor)] and the rest of
    the [try], with the handle as it is when the call is made. *)
Definition run_loaded (st : gw_state) (image_tensor : tensor) (now_ms : Z) : detect_result :=
  match phone_detection_model st with
  | Some m => py_try (run_detection m image_tensor now_ms) (fun e => DetErr (exc_msg e))
  | None => DetErr "'NoneType' object is not callable"
  end.

(** Where a request thread is. *)
Inductive dpc :=
| DCheck (t : tensor) (now_ms : Z)
| DLoad (t : tensor) (now_ms : Z)
| DRun (t : tensor) (now_ms : Z)
| DReply (r : response).

Record gconf := GConf { gst : gw_state; dpool : list dpc }.

(** The thread a request starts. *)
Definition request_dpc (req : pyres json) (now_ms : Z) : dpc :=
  match endpoint_front req with
  | inl r => DReply r
  | inr t => DCheck t now_ms
  end.

Inductive dstep : gconf -> gconf -> Prop :=
| d_arrive st p req now :
    dstep (GConf st p) (GConf st (p ++ [request_dpc req now]))
| d_check_none st p i t now :
    p !! i = Some (DCheck t now) -> phone_detection_model st = None ->
    dstep (GConf st p) (GConf st (<[i := DLoad t now]> p))
| d_check_some st p i t now m :
    p !! i = Some (DCheck t now) -> phone_detection_model st = Some m ->
    dstep (GConf st p) (GConf st (<[i := DRun t now]> p))
(** [hub.load] and the assignment, or the [except] of the loader. *)
| d_load st p i t now ok st' :
    p !! i = Some (DLoad t now) -> load_phone_detection_model st = (ok, st') ->
    dstep (GConf st p)
          (GConf st' (<[i := if ok then DRun t now
                             else DReply (endpoint_answer (DetErr "Model not loaded"))]> p))
| d_run st p i t now :
    p !! i = Some (DRun t now) ->
    dstep (GConf st p) (GConf st (<[i := DReply (endpoint_answer (run_loaded st t now))]> p)).

Definition dreachable (c : gconf) : Prop := star dstep (GConf gateway_startup []) c.

End Threads.

Arguments gconf : clear implicits.
Arguments gconf {_ _}.

(** ** Lemmas *)

Section Facts.
Context {IL : ImageLib} {SC : Scorer}.

(** A successful load leaves a model in the handle; every load counts. *)
Lemma load_spec st ok st' :
  load_phone_detection_model st = (ok, st') ->
  hub_loads st' = S (hub_loads st) /\
  (ok = true -> is_Some (phone_detection_model st')) /\
  (is_Some (phone_detection_model st) -> is_Some (phone_detection_model st')).
Proof.
  unfold load_phone_detection_model. destruct (hub_load (hub_loads st)); intros [= <- <-]; simpl;
    split_and!; try done; eauto; discriminate.
Qed.

(** No step empties the handle. *)
Lemma dstep_keeps_model c c' :
  dstep c c' -> is_Some (phone_detection_model (gst c)) -> is_Some (phone_detection_model (gst c')).
Proof.
  destruct 1 as [| | | st p i t now ok st' Hi Hl |]; simpl; try done.
  apply (load_spec _ _ _ Hl).
Qed.

End Facts.

(** ** Properties of concurrent detection requests *)

Section Claims.
Context {IL : ImageLib} {SC : Scorer}.

(** C37: the test [phone_detection_model is None] and the download are
    not under any lock, so the model is not loaded at most once: when
    the download at start-up fails, two requests served together can
    both find no model and both call [hub.load]; the second model
    replaces the first and both requests are answered with it. *)
Theorem concurrent_requests_load_twice req1 req2 t1 t2 now e0 m1 m2 :
  endpoint_front req1 = inr t1 -> endpoint_front req2 = inr t2 ->
  hub_load 0 = Raise e0 -> hub_load 1 = Ok m1 -> hub_load 2 = Ok m2 ->
  exists c, dreachable c /\ hub_loads (gst c) = 3 /\ phone_detection_model (gst c) = Some m2 /\
    dpool c = [DReply (endpoint_answer (run_loaded (GwState (Some m2) 3) t1 now));
               DReply (endpoint_answer (run_loaded (GwState (Some m2) 3) t2 now))].
Proof.
  intros H1 H2 H0 Hm1 Hm2.
  assert (Hs : gateway_startup = GwState None 1).
  { unfold gateway_startup, load_phone_detection_model. simpl. by rewrite H0. }
  eexists. split; [unfold dreachable; rewrite Hs |].
  - eapply star_step; [apply (d_arrive _ _ req1 now) |].
    eapply star_step; [apply (d_arrive _ _ req2 now) |]. unfold request_dpc. rewrite H1, H2. simpl.
    eapply star_step; [by eapply (d_check_none _ _ 0) |]. simpl.
    eapply star_step; [by eapply (d_check_none _ _ 1) |]. simpl.
    eapply star_step; [eapply (d_load _ _ 0); [reflexivity | unfold load_phone_detection_model; simpl; by rewrite Hm1] |].
    simpl.
    eapply star_step; [eapply (d_load _ _ 1); [reflexivity | unfold load_phone_detection_model; simpl; by rewrite Hm2] |].
    simpl.
    eapply star_step; [by eapply (d_run _ _ 0) |]. simpl.
    eapply star_step; [by eapply (d_run _ _ 1) |]. simpl.
    apply star_refl.
  - simpl. split_and!; reflexivity.
Qed.

End Claims.

(** ** Witnesses *)

Section Witnesses.
#[local] Existing Instance toy_lib.
#[local] Existing Instance toy_scorer.

Definition toy_request : pyres json := Ok (JObj [("imageData", JStr "data:image/png;base64,UE5H")]).

Lemma concurrent_requests_load_twice_witness :
  exists c, dreachable c /\ hub_loads (gst c) = 3 /\ phone_detection_model (gst c) = Some tt /\
    dpool c = [DReply (endpoint_answer (run_loaded (GwState (Some tt) 3) toy_tensor 9%Z));
               DReply (endpoint_answer (run_loaded (GwState (Some tt) 3) toy_tensor 9%Z))].
Proof.
  apply (@concurrent_requests_load_twice toy_lib toy_scorer toy_request toy_request toy_tensor toy_tensor 9%Z
           (Exc OSError "URL fetch failure") tt tt); vm_compute; reflexivity.
Defined.

End Witnesses.
