(* ===== verification/Server.v ===== *)
(** * The server as one system: handlers, metrics thread and streams

    Joins the models of [Lifecycle] and [Stream] into one interleaving
    semantics over the globals of src/backend/app.py they share: the
    global [camera] is the field [camera_handle] of the [world] that
    [start_detection] and [stop_detection] (lines 191-221) act on, and
    the [/video_feed] generators ([generate_frames], lines 114-154) read
    and assign that same field, while [last_frame] and the frame
    objects are shared between all generators.

    Each call [cv2.VideoCapture(0)] creates a new capture object; the
    objects are the list [sv_devices] ([true] while the object holds the
    device, that is [isOpened()]), and [sv_cam] says which of them the
    global [camera] names.  [camera.release()] releases that one.

    A generator is a thread of its own with a program counter:
    [GCheck] before [if camera is None:], [GOpen] between that test and
    the assignment [camera = cv2.VideoCapture(0)] (the test is not
    under any lock, and opening a device releases the GIL), [GRun] at
    the top of [while True:], [GDraw a] after the [with frame_lock:]
    block with the frame object [a] in hand, [GYield] suspended at the
    [yield], [GEnd] after a [return] or once closed.  [cv2.putText] and
    [cv2.imencode] run after the lock is released, so they are a step
    of their own ([emit]).  [gsent] is the body of the HTTP response
    sent so far, one chunk per [yield].  The response drives the
    generator: it resumes from a [yield] when the server asks for the
    next chunk, and when the client disconnects the server calls
    [close()], which raises [GeneratorExit] at the [yield]; nothing in
    [generate_frames] catches it, so the generator ends there.

    The [with frame_lock:] block is one atomic step ([sv_lock]): no
    other thread runs between its statements, which is what the lock
    guarantees; the lock itself is not state, so a generator waiting
    for it is not modelled, and no progress property is claimed.  The
    [try]/[except] around [cv2.VideoCapture(0)] (lines 119-126) is
    modelled on its normal path only (the [except] of lines 124-126 is not): [Vision] never raises. *)

From S2P Require Import Prelude Base64 Metrics Lifecycle Stream.

(** The stream-side globals other than [camera]. *)
Record fstate {V : Vision} := FState {
  f_last : option nat;
  f_heap : list frame;
  f_opens : nat;
  f_reads : nat;
}.
Arguments FState {_} _ _ _ _.
Arguments f_last {_} _.
Arguments f_heap {_} _.
Arguments f_opens {_} _.
Arguments f_reads {_} _.

Inductive gpc := GCheck | GOpen | GRun | GDraw (a : nat) | GYield | GEnd.

Record gthread := GThread { gpc_of : gpc; gsent : list (list Z) }.

Record server {RS : RandomSource} {V : Vision} := Server {
  sv_cfg : config;
  sv_fs : fstate;
  sv_gens : list gthread;
  sv_devices : list bool;
  sv_cam : option nat;
}.
Arguments Server {_ _} _ _ _ _ _.
Arguments sv_cfg {_ _} _.
Arguments sv_fs {_ _} _.
Arguments sv_gens {_ _} _.
Arguments sv_devices {_ _} _.
Arguments sv_cam {_ _} _.

Section Joint.
Context {RS : RandomSource} {V : Vision}.

(** The state a generator sees: the global [camera] and the rest. *)
Definition to_s (cam : option camera) (f : fstate) : sstate :=
  SState cam (f_last f) (f_heap f) (f_opens f) (f_reads f).

Definition of_s (st : sstate) : fstate :=
  FState (last_frame st) (heap st) (opens st) (reads st).

Definition w_set_camera (cam : option camera) (w : world) : world :=
  World (is_detection_running w) (detection_thread w) cam (camera_releases w)
        (drowsiness_data w) (rand w) (clock w) (failed_spawns w).

Definition cfg_set_camera (cam : option camera) (c : config) : config :=
  Config (w_set_camera cam (cw c)) (pool c).

(** [camera.release()] on the object the global names. *)
Definition release_device (k : option nat) (d : list bool) : list bool :=
  match k with
  | Some j => <[j := false]> d
  | None => d
  end.

(** Where an iteration leaves the generator: suspended at the [yield],
    or back at the top of the loop after a [continue]. *)
Definition after_emit (r : list Z + unit) : gpc :=
  match r with
  | inl _ => GYield
  | inr _ => GRun
  end.

(** What a [yield] adds to the response. *)
Definition sent (r : list Z + unit) : list (list Z) :=
  match r with
  | inl chunk => [chunk]
  | inr _ => []
  end.

Definition server_init (g : rng) : server :=
  Server (config_init g) (FState None [] 0 0) [] [] None.

Inductive sstep : server -> server -> Prop :=
(** A step of a handler or of the metrics loop that leaves [camera]. *)
| sv_world c c' f g d k :
    step c c' -> camera_handle (cw c') = camera_handle (cw c) ->
    sstep (Server c f g d k) (Server c' f g d k)
(** [camera.release()] in [stop_detection]. *)
| sv_release c f g d k i :
    pool c !! i = Some (TStop StopRelease) ->
    sstep (Server c f g d k)
          (Server (Config (camera_release (cw c)) (<[i := TReply resp_stopped]> (pool c)))
                  f g (release_device k d) k)
(** A request to [/video_feed]: a new generator. *)
| sv_feed c f g d k :
    sstep (Server c f g d k) (Server c f (g ++ [GThread GCheck []]) d k)
| sv_check_none c f g d k i o :
    g !! i = Some (GThread GCheck o) -> camera_handle (cw c) = None ->
    sstep (Server c f g d k) (Server c f (<[i := GThread GOpen o]> g) d k)
| sv_check_some c f g d k i o cam :
    g !! i = Some (GThread GCheck o) -> camera_handle (cw c) = Some cam ->
    sstep (Server c f g d k) (Server c f (<[i := GThread GRun o]> g) d k)
(** [camera = cv2.VideoCapture(0)], then [if not camera.isOpened(): return]. *)
| sv_open c f g d k i o b :
    g !! i = Some (GThread GOpen o) -> device_opens (f_opens f) = b ->
    sstep (Server c f g d k)
          (Server (cfg_set_camera (Some (Camera b)) c)
                  (FState (f_last f) (f_heap f) (S (f_opens f)) (f_reads f))
                  (<[i := GThread (if b then GRun else GEnd) o]> g)
                  (d ++ [b]) (Some (length d)))
(** The [with frame_lock:] block: a frame in hand, or [continue]. *)
| sv_lock c f g d k i o fa st :
    g !! i = Some (GThread GRun o) ->
    frame_cache (to_s (camera_handle (cw c)) f) = (fa, st) ->
    sstep (Server c f g d k)
          (Server c (of_s st)
                  (<[i := GThread (match fa with Some a => GDraw a | None => GRun end) o]> g) d k)
(** [cv2.putText], [cv2.imencode] and the [yield]. *)
| sv_emit c f g d k i o a r st :
    g !! i = Some (GThread (GDraw a) o) ->
    emit a (to_s (camera_handle (cw c)) f) = (r, st) ->
    sstep (Server c f g d k)
          (Server c (of_s st) (<[i := GThread (after_emit r) (o ++ sent r)]> g) d k)
(** The server asks for the next chunk: [time.sleep(0.03)], back to the loop. *)
| sv_resume c f g d k i o :
    g !! i = Some (GThread GYield o) ->
    sstep (Server c f g d k) (Server c f (<[i := GThread GRun o]> g) d k)
(** The client disconnects: [close()] ends the generator at its [yield]. *)
| sv_disconnect c f g d k i o :
    g !! i = Some (GThread GYield o) ->
    sstep (Server c f g d k) (Server c f (<[i := GThread GEnd o]> g) d k).

Definition sreachable (g : rng) (s : server) : Prop := star sstep (server_init g) s.

(** The global [camera] is the last capture object created, with its
    state, and the open counter counts the objects. *)
Definition cam_wf (s : server) : bool :=
  Nat.eqb (f_opens (sv_fs s)) (length (sv_devices s)) &&
  match sv_cam s, camera_handle (cw (sv_cfg s)) with
  | None, None => bool_decide (sv_devices s = [])
  | Some j, Some (Camera b) =>
      Nat.eqb (S j) (length (sv_devices s)) && bool_decide (sv_devices s !! j = Some b)
  | _, _ => false
  end.

(** Generators at a program counter satisfying [p]. *)
Definition gens_at (p : gpc -> bool) (g : list gthread) : nat :=
  length (List.filter (fun t => p (gpc_of t)) g).

Definition is_open_pc (pc : gpc) : bool := match pc with GOpen => true | _ => false end.
Definition is_started_pc (pc : gpc) : bool := match pc with GCheck => false | _ => true end.

(** The chunks all responses have sent. *)
Definition total_sent (g : list gthread) : nat :=
  fold_right (fun t n => length (gsent t) + n) 0 g.

(** Each generator calls [cv2.VideoCapture(0)] at most once: the capture
    objects and the generators between the test and the call are at
    most the generators that have passed the test. *)
Definition open_bound (s : server) : Prop :=
  length (sv_devices s) + gens_at is_open_pc (sv_gens s) <= gens_at is_started_pc (sv_gens s).

(** Capture object [j] is not the one [camera] names, and its state is [ob]. *)
Definition kept (j : nat) (ob : option bool) (s : server) : Prop :=
  sv_cam s <> Some j /\ j < length (sv_devices s) /\ sv_devices s !! j = ob.

(** [last_frame] is the object [l], holding [fr], and no generator is
    about to draw on [l] itself. *)
Definition cache_fixed (l : nat) (fr : frame) (s : server) : Prop :=
  f_last (sv_fs s) = Some l /\ f_heap (sv_fs s) !! l = Some fr /\
  forall i t, sv_gens s !! i = Some t -> gpc_of t <> GDraw l.

(** Not between the test and the opening, and no frame in hand. *)
Definition pc_quiet (pc : gpc) : bool :=
  match pc with GOpen | GDraw _ => false | _ => true end.

(** The camera released, nothing cached, no generator about to open
    the device or to draw. *)
Definition stalled (s : server) : Prop :=
  camera_handle (cw (sv_cfg s)) = Some (Camera false) /\ f_last (sv_fs s) = None /\
  forall i t, sv_gens s !! i = Some t -> pc_quiet (gpc_of t) = true.

End Joint.

(** ** Lemmas on the joint state *)

Module ServerFacts.

Section WithSources.
Context {RS : RandomSource} {V : Vision}.

Lemma to_s_of_s (st : sstate) : to_s (s_camera st) (of_s st) = st.
Proof. by destruct st. Qed.

(** The critical section reads the device but never assigns [camera]
    and never opens one. *)
Lemma frame_cache_keeps (st : sstate) fa st' :
  frame_cache st = (fa, st') -> s_camera st' = s_camera st /\ opens st' = opens st.
Proof.
  destruct st as [cam l h o r]. unfold frame_cache, camera_read. simpl.
  repeat case_match; intros; simplify_eq; auto.
Qed.

Lemma emit_keeps (st : sstate) a r st' :
  emit a st = (r, st') ->
  s_camera st' = s_camera st /\ opens st' = opens st /\ last_frame st' = last_frame st /\
  heap st' = alter put_text a (heap st).
Proof. unfold emit, annotate. repeat case_match; intros; simplify_eq; auto. Qed.

Lemma gens_at_app p g1 g2 : gens_at p (g1 ++ g2) = gens_at p g1 + gens_at p g2.
Proof. unfold gens_at. by rewrite List.filter_app, length_app. Qed.

(** Moving one generator from [t0] to [t] moves one unit of the count. *)
Lemma gens_at_insert p g i t0 t :
  g !! i = Some t0 ->
  gens_at p (<[i := t]> g) + (if p (gpc_of t0) then 1 else 0) =
  gens_at p g + (if p (gpc_of t) then 1 else 0).
Proof.
  unfold gens_at. revert i. induction g as [|t1 g IH]; intros [|i] Hi; simplify_eq/=.
  - destruct (p (gpc_of t0)), (p (gpc_of t)); simpl; lia.
  - specialize (IH i Hi). destruct (p (gpc_of t1)); simpl; lia.
Qed.

Lemma total_sent_app g1 g2 : total_sent (g1 ++ g2) = total_sent g1 + total_sent g2.
Proof. induction g1 as [|t g1 IH]; simpl; [done | rewrite IH; lia]. Qed.

(** Changing a generator's program counter without sending leaves the
    responses as they were. *)
Lemma total_sent_insert g i pc pc' o :
  g !! i = Some (GThread pc o) -> total_sent (<[i := GThread pc' o]> g) = total_sent g.
Proof.
  revert i. induction g as [|t g IH]; intros [|i] Hi; simplify_eq/=; [done |].
  by rewrite (IH i Hi).
Qed.

Lemma length_release_device k d : length (release_device k d) = length d.
Proof. destruct k; simpl; by rewrite ?length_insert. Qed.

Lemma camera_handle_release (w : world) :
  camera_handle (camera_release w) =
  match camera_handle w with Some _ => Some (Camera false) | None => None end.
Proof. unfold camera_release. by case_match. Qed.

(** [cam_wf] as a proposition. *)
Lemma cam_wf_spec s :
  cam_wf s = true <->
  f_opens (sv_fs s) = length (sv_devices s) /\
  ((sv_cam s = None /\ camera_handle (cw (sv_cfg s)) = None /\ sv_devices s = []) \/
   exists j b, sv_cam s = Some j /\ camera_handle (cw (sv_cfg s)) = Some (Camera b) /\
     S j = length (sv_devices s) /\ sv_devices s !! j = Some b).
Proof.
  unfold cam_wf. rewrite andb_true_iff, Nat.eqb_eq.
  destruct (sv_cam s) as [j|], (camera_handle (cw (sv_cfg s))) as [[b]|];
    rewrite ?andb_true_iff, ?Nat.eqb_eq, ?bool_decide_eq_true; split;
    intros [Ho Hc]; split; try done;
    try destruct Hc as [(? & ? & ?) | (? & ? & ? & ? & ? & ?)]; simplify_eq; eauto 10.
Qed.

(** With a frame cached, the critical section copies it to a new
    object. *)
Lemma frame_cache_cached (st : sstate) l fr :
  last_frame st = Some l -> heap st !! l = Some fr ->
  frame_cache st = (Some (length (heap st)),
    SState (s_camera st) (Some l) (heap st ++ [fr]) (opens st) (reads st)).
Proof. intros Hl Hf. unfold frame_cache. by rewrite Hl, Hf. Qed.

(** With nothing cached and the device closed, it does nothing. *)
Lemma frame_cache_closed (st : sstate) :
  last_frame st = None -> s_camera st = Some (Camera false) -> frame_cache st = (None, st).
Proof. intros Hl Hc. unfold frame_cache, camera_read. by rewrite Hl, Hc. Qed.

Lemma lookup_snoc_Some_inv {A} (g : list A) t i t' :
  (g ++ [t]) !! i = Some t' -> g !! i = Some t' \/ t' = t.
Proof.
  intros H. destruct (decide (i < length g)).
  - left. by rewrite lookup_app_l in H.
  - right. rewrite lookup_app_r in H by lia.
    destruct (i - length g); simpl in H; [congruence | by rewrite lookup_nil in H].
Qed.

Lemma lookup_insert_Some_inv {A} (g : list A) i t j t' :
  <[i := t]> g !! j = Some t' -> t' = t \/ g !! j = Some t'.
Proof. rewrite list_lookup_insert_Some. intros [(_ & -> & _) | (_ & ?)]; auto. Qed.

(** A property of every thread survives replacing one by a thread that
    has it, and appending one that has it. *)
Lemma all_threads_insert {A} (P : A -> Prop) (g : list A) i x :
  (forall j y, g !! j = Some y -> P y) -> P x ->
  forall j y, <[i := x]> g !! j = Some y -> P y.
Proof. intros Hall Hx j y Hj. destruct (lookup_insert_Some_inv _ _ _ _ _ Hj) as [-> |]; eauto. Qed.

Lemma all_threads_snoc {A} (P : A -> Prop) (g : list A) x :
  (forall j y, g !! j = Some y -> P y) -> P x ->
  forall j y, (g ++ [x]) !! j = Some y -> P y.
Proof. intros Hall Hx j y Hj. destruct (lookup_snoc_Some_inv _ _ _ _ Hj) as [| ->]; eauto. Qed.

End WithSources.
End ServerFacts.

(** ** Invariants of the joint semantics *)

Import FrameFacts ServerFacts.

(** The cases of one joint step, with their premises named. *)
Ltac sstep_cases Hs :=
  destruct Hs as [c c' f g d k Hst Hcam | c f g d k i Hi | c f g d k
    | c f g d k i o Hi Hn | c f g d k i o cam Hi Hn | c f g d k i o b Hi Hb
    | c f g d k i o fa st Hi Hfc | c f g d k i o a r st Hi Hem
    | c f g d k i o Hi | c f g d k i o Hi]; simpl in *.

Section Invariants.
Context {RS : RandomSource} {V : Vision}.

Lemma cam_wf_step s s' : sstep s s' -> cam_wf s = true -> cam_wf s' = true.
Proof.
  rewrite !cam_wf_spec. intros Hs [Ho Hc].
  sstep_cases Hs; try done.
  - by rewrite Hcam.
  - rewrite length_release_device, camera_handle_release. split; [done |].
    destruct Hc as [(-> & -> & ->) | (j & b & -> & -> & Hl & Hj)]; [by left | right].
    exists j, false. cbn [release_device]. rewrite list_lookup_insert_eq by lia. auto.
  - rewrite length_app, Ho. simpl. split; [lia | right].
    exists (length d), b. rewrite lookup_app_r, Nat.sub_diag by lia. split_and!; done || lia.
  - destruct (frame_cache_keeps _ _ _ Hfc) as [Hc' Ho']. simpl in Ho'. by rewrite Ho'.
  - destruct (emit_keeps _ _ _ _ Hem) as (Hc' & Ho' & _). simpl in Ho'. by rewrite Ho'.
Qed.

Ltac count_gens Hi :=
  match goal with
  | |- context [ <[?i := ?t]> ?g ] =>
      pose proof (gens_at_insert is_open_pc g i _ t Hi);
      pose proof (gens_at_insert is_started_pc g i _ t Hi)
  end; simpl in *.

Lemma open_bound_step s s' : sstep s s' -> open_bound s -> open_bound s'.
Proof.
  unfold open_bound. intros Hs Hbound.
  sstep_cases Hs.
  - done.
  - by rewrite length_release_device.
  - rewrite !gens_at_app. change (gens_at is_open_pc [GThread GCheck []]) with 0.
    change (gens_at is_started_pc [GThread GCheck []]) with 0. lia.
  - count_gens Hi. lia.
  - count_gens Hi. lia.
  - count_gens Hi. rewrite length_app. simpl. destruct b; simpl in *; lia.
  - count_gens Hi. destruct fa; simpl in *; lia.
  - count_gens Hi. destruct r; simpl in *; lia.
  - count_gens Hi. lia.
  - count_gens Hi. lia.
Qed.

Lemma kept_step j ob s s' : sstep s s' -> kept j ob s -> kept j ob s'.
Proof.
  unfold kept. intros Hs (Hk & Hl & Hj). sstep_cases Hs; try done.
  - rewrite length_release_device. split_and!; [done | done |].
    destruct k as [j'|]; simpl; [| done].
    rewrite list_lookup_insert_ne by congruence. done.
  - rewrite length_app, lookup_app_l by lia. simpl. split_and!; [intros [=]; lia | lia | done].
Qed.

(** The new thread of a step is not about to draw on [l]. *)
Ltac no_draw Hd := first [ eapply all_threads_insert; [exact Hd |] | eapply all_threads_snoc; [exact Hd |] ];
  simpl; try discriminate.

Lemma cache_fixed_step l fr s s' : sstep s s' -> cache_fixed l fr s -> cache_fixed l fr s'.
Proof.
  unfold cache_fixed. intros Hs (Hl & Hf & Hd). sstep_cases Hs; try done;
    try (split_and!; [done | done | no_draw Hd]).
  - destruct b; discriminate.
  - rewrite (frame_cache_cached _ l fr) in Hfc by done. injection Hfc as <- <-. simpl.
    assert (l < length (f_heap f)) by (eapply lookup_lt_Some; eauto).
    split_and!; [done | by apply lookup_snoc_old | no_draw Hd]. intros [= ?]. lia.
  - destruct (emit_keeps _ _ _ _ Hem) as (_ & _ & Hl' & Hh'). simpl in *.
    assert (a <> l) by (intros ->; by apply (Hd _ _ Hi)).
    split_and!; [congruence | rewrite Hh', list_lookup_alter_ne by done; done | no_draw Hd].
    destruct r; discriminate.
Qed.

Lemma stalled_step s s' :
  sstep s s' -> stalled s -> stalled s' /\ total_sent (sv_gens s') = total_sent (sv_gens s).
Proof.
  unfold stalled. intros Hs (Hc & Hl & Hq). sstep_cases Hs;
    try (by specialize (Hq _ _ Hi)); try congruence.
  - by rewrite Hcam.
  - by rewrite camera_handle_release, Hc.
  - rewrite total_sent_app. simpl. split_and!; [done | done | | lia].
    by apply all_threads_snoc.
  - rewrite (total_sent_insert _ _ _ _ _ Hi). split_and!; try done. by apply all_threads_insert.
  - rewrite Hc, frame_cache_closed in Hfc by done. injection Hfc as <- <-.
    simpl. rewrite (total_sent_insert _ _ _ _ _ Hi). split_and!; try done. by apply all_threads_insert.
  - rewrite (total_sent_insert _ _ _ _ _ Hi). split_and!; try done. by apply all_threads_insert.
  - rewrite (total_sent_insert _ _ _ _ _ Hi). split_and!; try done. by apply all_threads_insert.
Qed.

Lemma star_kept j ob s s' : star sstep s s' -> kept j ob s -> kept j ob s'.
Proof. intros Hs Hk. eapply (star_inv sstep (kept j ob)); [| exact Hk | exact Hs]. eauto using kept_step. Qed.

End Invariants.

(** ** Properties of the server *)

(** One step of a concrete run. *)
Tactic Notation "srun" tactic3(tac) := eapply star_step; [tac | cbn -[mjpeg_part]].

Section Claims.
Context {RS : RandomSource} {V : Vision}.

(** C29: in every reachable state of the server the global [camera] is
    the last capture object [cv2.VideoCapture(0)] created, with that
    object's opened state, and the open counter counts the objects:
    the handlers, the metrics thread and the streams keep the camera
    and the capture objects consistent. *)
Theorem reachable_cam_wf g s : sreachable g s -> cam_wf s = true.
Proof. intros Hr. eapply (star_inv sstep (fun x => cam_wf x = true)); [| | exact Hr]; [eauto using cam_wf_step | reflexivity]. Qed.

(** C30: each [/video_feed] generator calls [cv2.VideoCapture(0)] at most
    once: in every reachable state the capture objects created, plus the
    generators between [if camera is None:] and the call, are at most
    the generators that have passed that test. *)
Theorem reachable_open_bound g s : sreachable g s ->
  length (sv_devices s) + gens_at is_open_pc (sv_gens s) <= gens_at is_started_pc (sv_gens s).
Proof. intros Hr. eapply (star_inv sstep open_bound); [| | exact Hr]; [eauto using open_bound_step | cbv; lia]. Qed.

(** C31: the lazy opening of the camera is not under any lock: two
    concurrent [/video_feed] requests both find [camera is None] and
    both open the device; the global keeps the second object, and after
    [stop_detection] has answered and released [camera], the first
    capture object still holds the device, in every later state. *)
Theorem concurrent_feeds_leak_device g :
  device_opens 0 = true -> device_opens 1 = true ->
  exists s, sreachable g s /\ is_detection_running (cw (sv_cfg s)) = false /\
    camera_handle (cw (sv_cfg s)) = Some (Camera false) /\ pool (sv_cfg s) = [TReply resp_stopped] /\
    forall s', star sstep s s' -> sv_devices s' !! 0 = Some true.
Proof.
  intros H0 H1. eexists. split; [unfold sreachable, server_init, config_init |].
  - srun (apply sv_feed). srun (apply sv_feed).
    srun (eapply (sv_check_none _ _ _ _ _ 0); reflexivity).
    srun (eapply (sv_check_none _ _ _ _ _ 1); reflexivity).
    srun (eapply (sv_open _ _ _ _ _ 0 _ true); [reflexivity | exact H0]).
    srun (eapply (sv_open _ _ _ _ _ 1 _ true); [reflexivity | exact H1]).
    srun (eapply sv_world; [apply (step_arrive _ _ ReqStop) | reflexivity]).
    srun (eapply sv_world; [eapply (step_stop_clear _ _ 0); reflexivity | reflexivity]).
    srun (eapply (sv_release _ _ _ _ _ 0); reflexivity).
    apply star_refl.
  - split_and!; try reflexivity. intros s' Hs.
    refine (proj2 (proj2 (star_kept 0 (Some true) _ s' Hs _))).
    split_and!; cbn; [discriminate | lia | reflexivity].
Qed.

(** C32: once [last_frame] names a frame object that no generator is
    about to draw on, no interleaving of streams, handlers and the
    metrics thread changes [last_frame] or that object's content: every
    stream keeps serving the same picture. *)
Theorem cached_frame_never_changes s s' l fr :
  f_last (sv_fs s) = Some l -> f_heap (sv_fs s) !! l = Some fr ->
  (forall i t, sv_gens s !! i = Some t -> gpc_of t <> GDraw l) ->
  star sstep s s' -> f_last (sv_fs s') = Some l /\ f_heap (sv_fs s') !! l = Some fr.
Proof.
  intros Hl Hf Hd Hs.
  assert (Hc : cache_fixed l fr s') by (eapply (star_inv sstep (cache_fixed l fr)); eauto using cache_fixed_step; by split_and!).
  by destruct Hc as (? & ? & _).
Qed.

(** C34: after [stop_detection] has released the camera, with no frame
    cached and no generator about to open the device or to draw, no
    stream ever sends another chunk, whatever requests follow
    ([start_detection] included). *)
Theorem stopped_streams_send_nothing s s' :
  camera_handle (cw (sv_cfg s)) = Some (Camera false) -> f_last (sv_fs s) = None ->
  (forall i t, sv_gens s !! i = Some t -> pc_quiet (gpc_of t) = true) ->
  star sstep s s' -> total_sent (sv_gens s') = total_sent (sv_gens s).
Proof.
  intros Hc Hl Hq Hs.
  enough (stalled s' /\ total_sent (sv_gens s') = total_sent (sv_gens s)) by tauto.
  eapply (star_inv sstep (fun x => stalled x /\ total_sent (sv_gens x) = total_sent (sv_gens s)));
    [| by split_and! | exact Hs].
  intros x y [Hx Hn] Hxy. destruct (stalled_step x y Hxy Hx). split; [done | congruence].
Qed.

(** C33: [cv2.putText] writes into the object just stored in
    [last_frame] after [frame_lock] is released, so what a second stream
    shows depends on the interleaving: the capture with two banners
    when the first stream draws before the second copies the cache, with
    one banner when the copy comes first. *)
Theorem concurrent_streams_differ g fr j1 j2 :
  device_opens 0 = true -> capture 0 = Some fr ->
  imencode (put_text fr) = Some j1 -> imencode (put_text (put_text fr)) = Some j2 ->
  exists s1 s2, sreachable g s1 /\ sreachable g s2 /\
    gsent <$> sv_gens s1 = [[mjpeg_part j1]; [mjpeg_part j2]] /\
    gsent <$> sv_gens s2 = [[mjpeg_part j1]; [mjpeg_part j1]].
Proof.
  intros Ho Hr H1 H2. unfold sreachable, server_init, config_init.
  assert (Hpre : star sstep (server_init g)
    (Server (cfg_set_camera (Some (Camera true)) (config_init g)) (FState (Some 0) [fr] 1 1)
       [GThread (GDraw 0) []; GThread GRun []] [true] (Some 0))).
  { srun (apply sv_feed). srun (apply sv_feed).
    srun (eapply (sv_check_none _ _ _ _ _ 0); reflexivity).
    srun (eapply (sv_open _ _ _ _ _ 0 _ true); [reflexivity | exact Ho]).
    srun (eapply (sv_check_some _ _ _ _ _ 1); reflexivity).
    srun (eapply (sv_lock _ _ _ _ _ 0); [reflexivity | cbn; by rewrite Hr]).
    apply star_refl. }
  do 2 eexists. split_and!.
  - eapply star_trans; [exact Hpre |].
    srun (eapply (sv_emit _ _ _ _ _ 0); [reflexivity | cbv [emit annotate to_s]; cbn; by rewrite H1]).
    srun (eapply (sv_lock _ _ _ _ _ 1); reflexivity).
    srun (eapply (sv_emit _ _ _ _ _ 1); [reflexivity | cbv [emit annotate to_s]; cbn; by rewrite H2]).
    apply star_refl.
  - eapply star_trans; [exact Hpre |].
    srun (eapply (sv_lock _ _ _ _ _ 1); reflexivity).
    srun (eapply (sv_emit _ _ _ _ _ 0); [reflexivity | cbv [emit annotate to_s]; cbn; by rewrite H1]).
    srun (eapply (sv_emit _ _ _ _ _ 1); [reflexivity | cbv [emit annotate to_s]; cbn; by rewrite H1]).
    apply star_refl.
  - reflexivity.
  - reflexivity.
Qed.

End Claims.

(** ** Test double and witnesses *)

(** A camera that always opens; frames are brightness values, the
    [n]-th read returns [10 + n], [putText] brightens. *)
Definition cam_vision : Vision := {|
  frame := nat;
  device_opens _ := true;
  capture n := Some (10 + n);
  put_text f := S f;
  imencode f := Some [Z.of_nat f];
|}.

Section Witnesses.
#[local] Existing Instance toy_random.
#[local] Existing Instance cam_vision.

Lemma reachable_cam_wf_witness : cam_wf (server_init 0) = true.
Proof. exact (reachable_cam_wf 0 (server_init 0) (star_refl _ _)). Defined.

Lemma reachable_open_bound_witness :
  length (sv_devices (server_init 0)) + gens_at is_open_pc (sv_gens (server_init 0)) <=
  gens_at is_started_pc (sv_gens (server_init 0)).
Proof. exact (reachable_open_bound 0 (server_init 0) (star_refl _ _)). Defined.

Lemma concurrent_feeds_leak_device_witness :
  exists s, sreachable 0 s /\ is_detection_running (cw (sv_cfg s)) = false /\
    camera_handle (cw (sv_cfg s)) = Some (Camera false) /\ pool (sv_cfg s) = [TReply resp_stopped] /\
    forall s', star sstep s s' -> sv_devices s' !! 0 = Some true.
Proof. apply concurrent_feeds_leak_device; reflexivity. Defined.

Definition s_cached : server :=
  Server (config_init 0) (FState (Some 0) [11] 1 1) [GThread GRun []] [true] (Some 0).

Lemma cached_frame_never_changes_witness :
  f_last (sv_fs s_cached) = Some 0 /\ f_heap (sv_fs s_cached) !! 0 = Some 11.
Proof.
  apply (cached_frame_never_changes s_cached s_cached 0 11); [reflexivity | reflexivity | | apply star_refl].
  intros [|i] t H; simpl in H; [by injection H as <- | by rewrite ?lookup_nil in H].
Defined.

Definition s_stopped : server :=
  Server (Config (World false None (Some (Camera false)) 1 drowsiness_init 0 0 0) [])
         (FState None [] 1 0) [GThread GRun []] [false] (Some 0).

(** A new stream and a start request after the stop: nothing is sent. *)
Lemma stopped_streams_send_nothing_witness :
  total_sent (sv_gens (Server (Config (World true (Some 1) (Some (Camera false)) 1 drowsiness_init 0 0 0)
                                      [TReply resp_started; TSim SimCheck])
                              (FState None [] 1 0) [GThread GRun []; GThread GRun []] [false] (Some 0)))
  = total_sent (sv_gens s_stopped).
Proof.
  apply stopped_streams_send_nothing; [reflexivity | reflexivity | |].
  - intros [|i] t Ht; simpl in Ht; [by injection Ht as <- | by rewrite ?lookup_nil in Ht].
  - unfold s_stopped.
    srun (apply sv_feed).
    srun (eapply sv_world; [apply (step_arrive _ _ ReqStart) | reflexivity]).
    srun (eapply sv_world; [eapply (step_start_idle _ _ 0); reflexivity | reflexivity]).
    srun (eapply sv_world; [eapply (step_start_set _ _ 0); reflexivity | reflexivity]).
    srun (eapply sv_world; [eapply (step_start_spawn _ _ 0); reflexivity | reflexivity]).
    srun (eapply (sv_check_some _ _ _ _ _ 1); reflexivity).
    srun (eapply (sv_lock _ _ _ _ _ 1); reflexivity).
    apply star_refl.
Defined.

Lemma concurrent_streams_differ_witness :
  exists s1 s2, sreachable 0 s1 /\ sreachable 0 s2 /\
    gsent <$> sv_gens s1 = [[mjpeg_part [11%Z]]; [mjpeg_part [12%Z]]] /\
    gsent <$> sv_gens s2 = [[mjpeg_part [11%Z]]; [mjpeg_part [11%Z]]].
Proof. apply (@concurrent_streams_differ toy_random cam_vision 0 10); reflexivity. Defined.

End Witnesses.
