(* ===== verification/Routes.v ===== *)
(** * The request layer: the URL map, dispatch, and requests entering the server

    The [@app.route] decorators of src/backend/app.py (lines 181-263)
    build the URL map of the Flask application [app] (line 19); Flask
    and Werkzeug then send each request to a view by its path and
    method.  [rule] is one [@app.route]: its path, the methods given
    (["GET"] when none are), and its view.  Flask adds ["OPTIONS"] to
    every rule (automatic options) and Werkzeug adds ["HEAD"] to a rule
    that has ["GET"].  [match_rules] is one attempt of Werkzeug's
    matcher: the rules are tried in order, a rule whose path matches
    but whose methods do not is skipped while its methods are
    remembered, and the attempt ends in the view, in the automatic
    [OPTIONS] answer, in 405 with the remembered methods, or in 404.
    [dispatch] is [MapAdapter.match]: the matcher sees the path with
    its leading slashes collapsed ([path_part]); when no rule accepts
    the request, the map's default [merge_slashes=True] makes a second
    attempt on the path with each pair of slashes merged
    ([merge_slashes]), which answers a 308 redirect to the merged path
    ([Redirect]) when a rule accepts it there.

    [http_arrive] is the server ([app.run(..., threaded=True)], line
    274) receiving one request on a thread of its own: the routes that
    act on the shared globals become arrivals of the joint semantics of
    [Server]; the others answer without touching them.  A [HEAD]
    request runs the view but sends no body, so the [/video_feed]
    generator it builds is closed before it ever runs. *)

From S2P Require Import Prelude Base64 Detection Metrics Lifecycle Stream Inference Server.

Inductive http_method := GET | HEAD | POST | PUT | DELETE | PATCH | OPTIONS.

#[export] Instance http_method_eq_dec : EqDecision http_method.
Proof. solve_decision. Defined.

(** The views of the application. *)
Inductive endpoint :=
| EStatus | EApiStatus | EStart | EStop | EData | EVideo | EDetect | EPhoneStatus | EHealth.

#[export] Instance endpoint_eq_dec : EqDecision endpoint.
Proof. solve_decision. Defined.

Record rule := Rule { rule_path : string; rule_methods : list http_method; rule_endpoint : endpoint }.

Module Routes.

(** [@app.route('/status')] and the others, in the order of the file. *)
Definition rule_status := Rule "/status" [GET] EStatus.
Definition rule_api_status := Rule "/api/status" [GET] EApiStatus.
Definition rule_start := Rule "/api/start-drowsiness-detection" [GET] EStart.
Definition rule_stop := Rule "/api/stop-drowsiness-detection" [GET] EStop.
Definition rule_data := Rule "/api/drowsiness-data" [GET] EData.
Definition rule_video := Rule "/video_feed" [GET] EVideo.
Definition rule_detect := Rule "/api/detect-phone" [POST] EDetect.
Definition rule_phone_status := Rule "/api/phone-detection-status" [GET] EPhoneStatus.
Definition rule_health := Rule "/api/health" [GET] EHealth.

Definition url_map : list rule :=
  [rule_status; rule_api_status; rule_start; rule_stop; rule_data; rule_video;
   rule_detect; rule_phone_status; rule_health].

(** The methods a rule accepts once Flask and Werkzeug have added theirs. *)
Definition rule_all_methods (r : rule) : list http_method :=
  rule_methods r ++ (if bool_decide (GET ∈ rule_methods r) then [HEAD] else []) ++ [OPTIONS].

Definition rule_allows (r : rule) (m : http_method) : bool :=
  bool_decide (m ∈ rule_all_methods r).

Inductive dispatch_result :=
| Endpoint (e : endpoint)
| AutoOptions (allowed : list http_method)
| NotFound
| MethodNotAllowed (allowed : list http_method)
| Redirect (location : string).

(** [MapAdapter.match], then Flask's automatic [OPTIONS] answer. *)
Fixpoint match_rules (m : http_method) (p : string) (rs : list rule)
    (have : list http_method) : dispatch_result :=
  match rs with
  | [] => match have with [] => NotFound | _ => MethodNotAllowed have end
  | r :: rs' =>
      if String.eqb (rule_path r) p then
        if rule_allows r m then
          if bool_decide (m = OPTIONS) then AutoOptions (rule_all_methods r)
          else Endpoint (rule_endpoint r)
        else match_rules m p rs' (have ++ rule_all_methods r)
      else match_rules m p rs' have
  end.

(** [path_info.lstrip("/")]. *)
Fixpoint lstrip_slash (s : string) : string :=
  match s with
  | String c rest => if Ascii.eqb c "/" then lstrip_slash rest else s
  | EmptyString => EmptyString
  end.

(** [f"/{path_info.lstrip('/')}" if path_info else ""]: the path
    [MapAdapter.match] hands to the matcher. *)
Definition path_part (p : string) : string :=
  match p with
  | EmptyString => EmptyString
  | _ => String "/" (lstrip_slash p)
  end.

(** [re.sub("/{2,}?", "/", path)]: the lazy quantifier matches exactly
    two slashes, and the matches are replaced left to right without
    overlap, so each pair of slashes becomes one. *)
Fixpoint merge_slashes (s : string) : string :=
  match s with
  | EmptyString => EmptyString
  | String c rest =>
      match rest with
      | String c' rest' =>
          if (Ascii.eqb c "/" && Ascii.eqb c' "/")%bool then String "/" (merge_slashes rest')
          else String c (merge_slashes rest)
      | EmptyString => String c EmptyString
      end
  end.

(** A rule was found and accepts the method. *)
Definition matched (d : dispatch_result) : bool :=
  match d with Endpoint _ | AutoOptions _ => true | _ => false end.

(** The set [have_match_for] a failed attempt leaves behind. *)
Definition have_of (d : dispatch_result) : list http_method :=
  match d with MethodNotAllowed h => h | _ => [] end.

(** [MapAdapter.match] with the map's default [merge_slashes=True]: a
    first attempt on [path_part p]; when no rule accepts the request,
    a second attempt on the path with its slashes merged, which ends in
    [RequestPath] (a 308 redirect to the merged path) when a rule
    accepts it, and otherwise in [NoMatch] with the methods both
    attempts collected.  When merging changes nothing the second
    attempt repeats the first and adds no method to the set, so it is
    skipped. *)
Definition dispatch (m : http_method) (p : string) : dispatch_result :=
  let q := path_part p in
  let r0 := match_rules m q url_map [] in
  if matched r0 then r0
  else
    let q' := merge_slashes q in
    if String.eqb q' q then r0
    else
      let r1 := match_rules m q' url_map (have_of r0) in
      if matched r1 then Redirect q' else r1.


(** One request arriving at the running server. *)
Definition http_arrive {RS : RandomSource} {V : Vision}
    (m : http_method) (p : string) (s : server) : server :=
  let '(Server c f g d k) := s in
  let arrive r := Server (Config (cw c) (pool c ++ [request_thread r])) f g d k in
  match dispatch m p with
  | Endpoint EStart => arrive ReqStart
  | Endpoint EStop => arrive ReqStop
  | Endpoint EData => arrive ReqGet
  | Endpoint EVideo =>
      if bool_decide (m = GET) then Server c f (g ++ [GThread GCheck []]) d k else s
  | _ => s
  end.

(** A sequence of requests, in order of arrival. *)
Fixpoint http_serve {RS : RandomSource} {V : Vision}
    (reqs : list (http_method * string)) (s : server) : server :=
  match reqs with
  | [] => s
  | (m, p) :: reqs' => http_serve reqs' (http_arrive m p s)
  end.





End Routes.

(** ** The whole application: the server and the detection threads

    The detection view touches only [phone_detection_model], which no
    other part reads or writes, so the application is the free
    composition of the joint semantics of [Server] and the request
    threads of [Inference]: a step is a step of one of them, on its own
    part of the state.  A request is dispatched through the URL map and
    enters the part its view acts on; the status views answer at once
    from the globals. *)

Module System.
Import Routes.

Record http_request := HttpRequest {
  rq_method : http_method;
  rq_path : string;
  rq_json : pyres json;
  rq_now : Z;
}.

Record system {RS : RandomSource} {V : Vision} {IL : ImageLib} {SC : Scorer} :=
  Sys { sys_srv : server; sys_gw : gconf }.
Arguments Sys {_ _ _ _} _ _.
Arguments sys_srv {_ _ _ _} _.
Arguments sys_gw {_ _ _ _} _.

Section Composition.
Context {RS : RandomSource} {V : Vision} {IL : ImageLib} {SC : Scorer}.

Inductive sys_step : system -> system -> Prop :=
| sys_server s s' gw : sstep s s' -> sys_step (Sys s gw) (Sys s' gw)
| sys_gateway s gw gw' : dstep gw gw' -> sys_step (Sys s gw) (Sys s gw').

(** A request arriving: [POST /api/detect-phone] starts a detection
    thread with the request's body, the other routes enter the server. *)
Definition sys_arrive (rq : http_request) (x : system) : system :=
  match dispatch (rq_method rq) (rq_path rq) with
  | Endpoint EDetect =>
      Sys (sys_srv x) (GConf (gst (sys_gw x)) (dpool (sys_gw x) ++ [request_dpc (rq_json rq) (rq_now rq)]))
  | _ => Sys (http_arrive (rq_method rq) (rq_path rq) (sys_srv x)) (sys_gw x)
  end.

Fixpoint sys_serve (rqs : list http_request) (x : system) : system :=
  match rqs with
  | [] => x
  | rq :: rqs' => sys_serve rqs' (sys_arrive rq x)
  end.

(** The views that answer at once, from the globals as they are. *)
Definition sys_answer (rq : http_request) (x : system) : option response :=
  match dispatch (rq_method rq) (rq_path rq) with
  | Endpoint EStatus => Some status_route
  | Endpoint EApiStatus => Some api_status
  | Endpoint EPhoneStatus => Some (phone_detection_status (gst (sys_gw x)))
  | Endpoint EHealth => Some (health_check (gst (sys_gw x)))
  | _ => None
  end.

Definition sys_init (g : rng) : system := Sys (server_init g) (GConf gateway_startup []).

Definition sys_reachable (g : rng) (x : system) : Prop := star sys_step (sys_init g) x.

End Composition.

(** What a client reads in the answer of a status view. *)
Definition answer_model_loaded (r : response) : option bool :=
  match body r with
  | JObj kvs => match json_lookup "modelLoaded" kvs with Some (JBool b) => Some b | _ => None end
  | _ => None
  end.

End System.

(** ** Dispatch and the requests entering the server *)

Import Routes.

Section RouteFacts.
















(** One request is zero or one step of the joint semantics. *)
Lemma http_arrive_step {RS : RandomSource} {V : Vision} m p s : star sstep s (http_arrive m p s).
Proof.
  destruct s as [[w pl] f g d k]. unfold http_arrive.
  destruct (dispatch m p) as [[] | | | |]; try apply star_refl; try case_bool_decide; try apply star_refl;
    apply star_one; try apply sv_feed; (eapply sv_world; [apply step_arrive | reflexivity]).
Qed.

(** The request layer composes with the server: any sequence of
    HTTP requests, dispatched through the URL map, takes a reachable
    state of the joint semantics to a reachable state, so every
    invariant of reachable states holds under any traffic. *)
Theorem http_serve_reachable {RS : RandomSource} {V : Vision} g s reqs :
  sreachable g s -> sreachable g (http_serve reqs s).
Proof.
  revert s. induction reqs as [|[m p] reqs IH]; intros s Hs; [done |].
  apply IH. eapply star_trans; [exact Hs | apply http_arrive_step].
Qed.

End RouteFacts.

(** ** The whole application *)

Import System.

Section SystemFacts.
Context {RS : RandomSource} {V : Vision} {IL : ImageLib} {SC : Scorer}.

Lemma star_sys_server s s' gw : star sstep s s' -> star sys_step (Sys s gw) (Sys s' gw).
Proof. induction 1; [apply star_refl | eapply star_step; [by apply sys_server | done]]. Qed.

(** One request is zero or one step of the application. *)
Lemma sys_arrive_step rq x : star sys_step x (sys_arrive rq x).
Proof.
  destruct x as [s [st p]]. unfold sys_arrive.
  destruct (dispatch (rq_method rq) (rq_path rq)) as [[] | | | |];
    try (apply star_sys_server, http_arrive_step).
  apply star_one, sys_gateway, d_arrive.
Qed.

Lemma sys_serve_star x rqs : star sys_step x (sys_serve rqs x).
Proof.
  revert x. induction rqs as [|rq rqs IH]; intros x; [apply star_refl |].
  eapply star_trans; [apply sys_arrive_step | apply IH].
Qed.

Lemma sys_serve_reachable g x rqs : sys_reachable g x -> sys_reachable g (sys_serve rqs x).
Proof. intros Hx. eapply star_trans; [exact Hx | apply sys_serve_star]. Qed.

(** No step of the application unloads the model. *)
Lemma sys_step_keeps_model x x' :
  sys_step x x' -> is_Some (phone_detection_model (gst (sys_gw x))) ->
  is_Some (phone_detection_model (gst (sys_gw x'))).
Proof. destruct 1; [done | by apply dstep_keeps_model]. Qed.

(** The two status routes answer [phone_detection_status]. *)
Lemma sys_answer_status rq x :
  rq_method rq = GET ->
  rq_path rq = "/api/phone-detection-status" \/ rq_path rq = "/api/health" ->
  sys_answer rq x = Some (phone_detection_status (gst (sys_gw x))).
Proof. destruct rq as [m p j n]; simpl. intros -> [-> | ->]; reflexivity. Qed.

Lemma answer_status_model (st : gw_state) :
  answer_model_loaded (phone_detection_status st) = Some (bool_decide (is_Some (phone_detection_model st))).
Proof. reflexivity. Qed.

End SystemFacts.

Section SystemClaims.
Context {RS : RandomSource} {V : Vision} {IL : ImageLib} {SC : Scorer}.

(** C27: the status routes report the model handle, and once they
    report it loaded they always will: whatever requests, handler
    steps, stream steps and detection threads follow, a [GET] of
    [/api/phone-detection-status] or [/api/health] that answered
    [modelLoaded: true] answers it again. *)
Theorem status_model_loaded_monotone x x' rq :
  star sys_step x x' -> rq_method rq = GET ->
  rq_path rq = "/api/phone-detection-status" \/ rq_path rq = "/api/health" ->
  (exists r, sys_answer rq x = Some r /\ answer_model_loaded r = Some true) ->
  exists r', sys_answer rq x' = Some r' /\ answer_model_loaded r' = Some true.
Proof.
  intros Hs Hm Hp (r & Hr & Hl). rewrite (sys_answer_status rq x Hm Hp) in Hr. injection Hr as <-.
  rewrite answer_status_model in Hl. injection Hl as Hl. apply bool_decide_eq_true in Hl.
  exists (phone_detection_status (gst (sys_gw x'))). split; [by apply sys_answer_status |].
  rewrite answer_status_model. f_equal. apply bool_decide_eq_true.
  eapply (star_inv sys_step (fun y => is_Some (phone_detection_model (gst (sys_gw y))))); [| exact Hl | exact Hs].
  eauto using sys_step_keeps_model.
Qed.

End SystemClaims.

(** ** Witnesses *)

Section Witnesses.
#[local] Existing Instance toy_random.
#[local] Existing Instance cam_vision.

(** Two viewers, a start, a [HEAD] of the feed, a stray [POST] and an
    unknown path, from the process start. *)
Lemma http_serve_reachable_witness :
  sreachable 0 (http_serve [(GET, "/video_feed"); (GET, "/api/start-drowsiness-detection");
                            (HEAD, "/video_feed"); (POST, "/status"); (GET, "/video_feed");
                            (GET, "/favicon.ico")] (server_init 0)).
Proof. apply http_serve_reachable. apply star_refl. Defined.


End Witnesses.

Section SystemWitnesses.
#[local] Existing Instance toy_random.
#[local] Existing Instance cam_vision.
#[local] Existing Instance toy_lib.
#[local] Existing Instance toy_scorer.

Definition rq_health : http_request := HttpRequest GET "/api/health" (Ok JNull) 0.
Definition rq_detect : http_request := HttpRequest POST "/api/detect-phone" toy_request 5.
Definition rq_start : http_request := HttpRequest GET "/api/start-drowsiness-detection" (Ok JNull) 6.

Definition x_loaded : system := Sys (server_init 0) (GConf (GwState (Some tt) 1) []).

(** A detection request and a start request after the model is loaded. *)
Lemma status_model_loaded_monotone_witness :
  exists r', sys_answer rq_health (sys_serve [rq_detect; rq_start] x_loaded) = Some r' /\
    answer_model_loaded r' = Some true.
Proof.
  apply (status_model_loaded_monotone x_loaded); [apply sys_serve_star | reflexivity | right; reflexivity |].
  eexists. split; reflexivity.
Defined.

End SystemWitnesses.
